(** * Dialect abstraction layer: data-type overrides, escaping and the
      MySQL data types.

    A shallow embedding of [AbstractDialect] (override registry,
    [escapeBuffer], [escapeString]) and of the MySQL data types
    [BOOLEAN], [DATE], [GEOMETRY] and [ENUM], followed by the theorems
    that relate them to the written specification. *)

From Stdlib Require Import ZArith Lia List String Ascii DecimalString.
From Stdlib.Strings Require Import Byte.
From Stdlib Require Import Floats.SpecFloat.
From stdpp Require Import gmap strings list.
Import ListNotations.

(** ** JavaScript values and built-ins used by the sources *)

Module JS.

(** An exception object: the sources only ever throw [new Error(message)]. *)
Inductive Exception : Type :=
  | Error (message : string).

Definition message (e : Exception) : string :=
  match e with Error m => m end.

(** The outcome of evaluating an expression or a call: a value, or an
    abrupt completion carrying the thrown exception. *)
Inductive Completion (A : Type) : Type :=
  | Return (a : A)
  | Throw (e : Exception).
Arguments Return {A} a.
Arguments Throw {A} e.

Definition bind {A B} (c : Completion A) (k : A -> Completion B) : Completion B :=
  match c with
  | Return a => k a
  | Throw e => Throw e
  end.

Definition is_Throw {A} (c : Completion A) : bool :=
  match c with Return _ => false | Throw _ => true end.

(** Runtime values.  Strings are sequences of characters (the quote, the
    only character the sources single out, is one character in every
    encoding of a JavaScript string).  Numbers are IEEE-754 doubles; a [Buffer] is kept apart
    from the other objects because the sources test for it with
    [Buffer.isBuffer]; every other object (arrays, dates, functions, boxed
    primitives, ...) is [VObject], identified by its reference. *)
Inductive Value : Type :=
  | VUndefined
  | VNull
  | VBool (b : bool)
  | VNumber (x : spec_float)
  | VBigInt (z : Z)
  | VString (s : string)
  | VSymbol (ref : positive)
  | VBuffer (bytes : list byte)
  | VObject (ref : positive).

(** ECMAScript [ToBoolean]. *)
Definition ToBoolean (v : Value) : bool :=
  match v with
  | VUndefined | VNull => false
  | VBool b => b
  | VNumber (S754_zero _) | VNumber S754_nan => false
  | VNumber _ => true
  | VBigInt z => negb (Z.eqb z 0)
  | VString s => negb (Nat.eqb (String.length s) 0)
  | VSymbol _ | VBuffer _ | VObject _ => true
  end.

(** [Buffer.isBuffer]. *)
Definition Buffer_isBuffer (v : Value) : bool :=
  match v with VBuffer _ => true | _ => false end.

(** [typeof v === 'string']. *)
Definition typeof_string (v : Value) : bool :=
  match v with VString _ => true | _ => false end.

(** Strict equality with a boolean literal, [v === b]. *)
Definition strict_eq_bool (v : Value) (b : bool) : bool :=
  match v with VBool b' => Bool.eqb b' b | _ => false end.

(** [Array.prototype.join] on an array of strings: the separator is put
    in front of every element but the first. *)
Fixpoint join_from (sep : string) (started : bool) (l : list string) : string :=
  match l with
  | [] => ""
  | x :: r => (if started then sep else "") +:+ x +:+ join_from sep true r
  end.

Definition Array_join (l : list string) (sep : string) : string :=
  join_from sep false l.

(** [String.prototype.replace] with a global pattern matching the single
    character [c] and a replacement string without [$] patterns. *)
Fixpoint replace_char_global (c : ascii) (by_ : string) (s : string) : string :=
  match s with
  | EmptyString => EmptyString
  | String x r =>
      if Ascii.eqb x c then by_ +:+ replace_char_global c by_ r
      else String x (replace_char_global c by_ r)
  end.

(** One hexadecimal digit, lowercase, as [Buffer.prototype.toString('hex')]
    prints it. *)
Definition hex_digit (n : N) : ascii :=
  match n with
  | 0 => "0" | 1 => "1" | 2 => "2" | 3 => "3" | 4 => "4" | 5 => "5"
  | 6 => "6" | 7 => "7" | 8 => "8" | 9 => "9" | 10 => "a" | 11 => "b"
  | 12 => "c" | 13 => "d" | 14 => "e" | _ => "f"
  end%N%char.

(** [buffer.toString('hex')]: two digits per byte, high nibble first. *)
Fixpoint Buffer_toString_hex (buffer : list byte) : string :=
  match buffer with
  | [] => EmptyString
  | b :: r =>
      let n := Byte.to_N b in
      String (hex_digit (N.shiftr n 4))
        (String (hex_digit (N.land n 15)) (Buffer_toString_hex r))
  end.

(** [buffer.subarray(start)] for a non-negative [start]: the view that
    skips [start] bytes, empty when the buffer is shorter. *)
Definition Buffer_subarray (buffer : list byte) (start : nat) : list byte :=
  drop start buffer.

(** [Array.prototype.includes] on an array of strings. *)
Definition Array_includes (l : list string) (x : string) : bool :=
  existsb (String.eqb x) l.

(** [String(n)] for an integer-valued number. *)
Definition Number_toString (n : Z) : string :=
  NilZero.string_of_int (Z.to_int n).

(** [String.prototype.padStart] with a one-character filler. *)
Definition padStart (s : string) (targetLength : nat) (filler : ascii) : string :=
  string_of_list_ascii (repeat filler (targetLength - String.length s)) +:+ s.

End JS.

Import JS.

(** ** The abstract dialect *)

Module AbstractDialect.

(** A class object: its identity (the reference of the constructor
    function) and its [name] property. *)
Record Class : Type := mkClass {
  ref : positive;
  name : string;
}.

(** A data-type class as a dialect declares it: the class itself and the
    static property stored under the symbol [kIsDataTypeOverrideOf], absent
    ([None]) when the class does not say which base data type it replaces. *)
Record DataTypeClass : Type := mkDataTypeClass {
  class : Class;
  kIsDataTypeOverrideOf : option Class;
}.

(** The [Map] built by the getter.  Keys are base classes, compared by
    identity, hence by reference. *)
Abbreviation Overrides := (gmap positive DataTypeClass).

(** A dialect instance: the fields the getter reads, and the private
    [#dataTypeOverridesCache] slot it writes. *)
Record t : Type := mkDialect {
  dialect_name : string;
  DataTypes : list (string * DataTypeClass);
  dataTypeOverridesCache : option Overrides;
}.

Definition set_cache (this : t) (c : option Overrides) : t :=
  {| dialect_name := dialect_name this;
     DataTypes := DataTypes this;
     dataTypeOverridesCache := c |}.

(** [Object.values]: the property values in enumeration order. *)
Definition Object_values {A} (o : list (string * A)) : list A := map snd o.

Definition missing_marker_message (dialect dataType : string) : string :=
  "Dialect " +:+ dialect +:+ " declares a DataType " +:+ dataType
  +:+ ", but does not specify which base DataType it is the dialect-specific implementation of.".

Definition duplicate_override_message (dialect replaced : string) : string :=
  "Dialect " +:+ dialect +:+ " declares more than one implementation for DataType "
  +:+ replaced +:+ ".".

(** The body of the [for ... of] loop, run over the remaining values with
    the map built so far. *)
Fixpoint collect_overrides (dialect : string) (values : list DataTypeClass)
    (overrides : Overrides) : Completion Overrides :=
  match values with
  | [] => Return overrides
  | dataType :: rest =>
      match kIsDataTypeOverrideOf dataType with
      | None =>
          Throw (Error (missing_marker_message dialect (name (class dataType))))
      | Some replacedDataType =>
          match overrides !! ref replacedDataType with
          | Some _ =>
              Throw (Error (duplicate_override_message dialect (name replacedDataType)))
          | None =>
              collect_overrides dialect rest
                (<[ref replacedDataType := dataType]> overrides)
          end
      end
  end.

(** The getter [dataTypeOverrides]: the completion it produces and the
    instance afterwards. *)
Definition dataTypeOverrides (this : t) : Completion Overrides * t :=
  match dataTypeOverridesCache this with
  | Some cached => (Return cached, this)
  | None =>
      match collect_overrides (dialect_name this)
              (Object_values (DataTypes this)) ∅ with
      | Throw e => (Throw e, this)
      | Return overrides => (Return overrides, set_cache this (Some overrides))
      end
  end.

(** Reading the getter [n] times in a row. *)
Fixpoint read_repeatedly (n : nat) (this : t) : list (Completion Overrides) * t :=
  match n with
  | O => ([], this)
  | S k =>
      let '(r, this1) := dataTypeOverrides this in
      let '(rs, this2) := read_repeatedly k this1 in
      (r :: rs, this2)
  end.

(** [escapeBuffer]. *)
Definition escapeBuffer (buffer : list byte) : string :=
  let hex := Buffer_toString_hex buffer in
  "X'" +:+ hex +:+ "'".

(** [escapeString]. *)
Definition escapeString (value : string) : string :=
  let value := replace_char_global "'" "''" value in
  "'" +:+ value +:+ "'".

(** The overridable methods of a dialect which data types call through
    [options.dialect]. *)
Record Methods : Type := mkMethods {
  call_escapeBuffer : list byte -> string;
  call_escapeString : string -> string;
}.

(** A dialect that inherits both methods unchanged. *)
Definition inherited : Methods :=
  {| call_escapeBuffer := escapeBuffer; call_escapeString := escapeString |}.

End AbstractDialect.

(** ** The [dayjs] objects the DATE type formats *)

Module Dayjs.

(** The broken-down fields a [dayjs] instance carries ([$y], [$M] counted
    from zero, [$D], [$H], [$m], [$s], [$ms]) and whether it wraps a valid
    date. *)
Record t : Type := mkDayjs {
  isValid : bool;
  year : Z;
  month0 : Z;
  day : Z;
  hour : Z;
  minute : Z;
  second : Z;
  millisecond : Z;
}.

Definition padded (n : Z) (width : nat) : string :=
  padStart (Number_toString n) width "0".

(** One formatting step: the rendered token at the head of [f] (or the
    head character itself when no token starts there) and the number of
    characters it consumed. *)
Definition format_step (d : t) (f : string) : string * nat :=
  if String.prefix "YYYY" f then (padded (year d) 4, 4)
  else if String.prefix "SSS" f then (padded (millisecond d) 3, 3)
  else if String.prefix "MM" f then (padded (month0 d + 1) 2, 2)
  else if String.prefix "DD" f then (padded (day d) 2, 2)
  else if String.prefix "HH" f then (padded (hour d) 2, 2)
  else if String.prefix "mm" f then (padded (minute d) 2, 2)
  else if String.prefix "ss" f then (padded (second d) 2, 2)
  else (String.substring 0 1 f, 1).

Fixpoint format_from (fuel : nat) (d : t) (f : string) : string :=
  match fuel with
  | O => ""
  | S fuel' =>
      match f with
      | EmptyString => ""
      | _ =>
          let '(out, used) := format_step d f in
          out +:+ format_from fuel' d
                    (String.substring used (String.length f - used) f)
      end
  end.

(** Modelled from the spec: [dayjs], the library behind [date.format], is
    not among the sources.  Following the literal format the
    specification gives ("YYYY-MM-DD HH:mm:ss.SSS", three-digit fractional
    seconds), the tokens YYYY, MM, DD, HH, mm, ss and SSS render the
    matching field zero-padded to the token's width, every other
    character stands for itself, and an invalid date renders as
    "Invalid Date".  Every step consumes at least one character, so the
    length of the format string is enough fuel. *)
Definition format (d : t) (f : string) : string :=
  if isValid d then format_from (String.length f) d f else "Invalid Date".

(** The fields of a [dayjs] object that wraps a valid date: the month
    counts from zero to eleven, the day of the month from one, and the
    clock fields stay below their units; the year is any year a date can
    have. *)
Definition well_formed (d : t) : Prop :=
  (0 <= month0 d <= 11)%Z /\ (1 <= day d <= 31)%Z
  /\ (0 <= hour d <= 23)%Z /\ (0 <= minute d <= 59)%Z
  /\ (0 <= second d <= 59)%Z /\ (0 <= millisecond d <= 999)%Z.

End Dayjs.

(** ** The MySQL data types *)

Module MySql.

Module BOOLEAN.
Section WithInspect.

(** [NodeUtil.inspect], the renderer of Node's runtime. *)
Variable inspect : Value -> string.

Definition toSql : string := "TINYINT(1)".

Definition toBindableValue (value : Value) : Completion string :=
  if strict_eq_bool value true then Return "1"
  else if strict_eq_bool value false then Return "0"
  else Throw (Error ("Unsupported value for BOOLEAN: " +:+ inspect value)).

End WithInspect.
End BOOLEAN.

Module DATE.
Section WithTimezone.

(** The dates and options the method is typed with. *)
Variables AcceptedDate StringifyOptions : Type.

(** [_applyTimezone] of the base DATE type (not among the sources): it
    turns the accepted date into a [dayjs] object moved to the time
    zone named by the options. *)
Variable _applyTimezone : AcceptedDate -> StringifyOptions -> Dayjs.t.

Definition toBindableValue (date : AcceptedDate) (options : StringifyOptions) : string :=
  let date := _applyTimezone date options in
  Dayjs.format date "YYYY-MM-DD HH:mm:ss.SSS".

End WithTimezone.
End DATE.

Module GEOMETRY.

Definition SUPPORTED_GEOMETRY_TYPES : list string :=
  ["POINT"; "LINESTRING"; "POLYGON"].

(** The options of a GEOMETRY instance; [None] is [undefined]. *)
Record Options : Type := mkOptions {
  type : option string;
  srid : option Z;
}.

Record t : Type := mkGEOMETRY { options : Options }.

(** Modelled from the spec: the constructor of the base GEOMETRY type (not
    among the sources) stores the construction-time options, the geometry
    subtype and the SRID, on the instance. *)
Definition super (type : option string) (srid : option Z) : t :=
  {| options := {| type := type; srid := srid |} |}.

(** Truthiness of [this.options.type]. *)
Definition type_given (ty : option string) : bool :=
  match ty with
  | None => false
  | Some s => ToBoolean (VString s)
  end.

Definition type_supported (ty : option string) : bool :=
  match ty with
  | None => false
  | Some s => Array_includes SUPPORTED_GEOMETRY_TYPES s
  end.

Definition constructor (type : option string) (srid : option Z) : Completion t :=
  let this := super type srid in
  if type_given (GEOMETRY.type (options this))
     && negb (type_supported (GEOMETRY.type (options this)))
  then Throw (Error ("Supported geometry types are: "
                     +:+ Array_join SUPPORTED_GEOMETRY_TYPES ", "))
  else Return this.

Definition toSql (this : t) : string :=
  match GEOMETRY.type (options this) with
  | Some s => if ToBoolean (VString s) then s else "GEOMETRY"
  | None => "GEOMETRY"
  end.

(** Modelled from the spec: [isString] of the utilities (not among the
    sources) is the type guard that narrows [value] to a string, which is
    how [sanitize] uses it when it types the value [string | Buffer]. *)
Definition isString (value : Value) : bool := typeof_string value.

(** The [length] property, read by [sanitize] on strings and buffers only. *)
Definition length_of (value : Value) : nat :=
  match value with
  | VString s => String.length s
  | VBuffer b => length b
  | _ => 0
  end.

Record ToGeoJSONOptions : Type := mkToGeoJSONOptions { shortCrs : bool }.

Section WithWkx.

(** The [wkx] library: parsed geometries, the GeoJSON objects it emits,
    [wkx.Geometry.parse] (which throws on malformed input) and
    [toGeoJSON]. *)
Variables Geometry GeoJSON : Type.
Variable wkx_Geometry_parse : Value -> Completion Geometry.
Variable toGeoJSON : Geometry -> ToGeoJSONOptions -> GeoJSON.

(** What [sanitize] returns: a plain value ([null] or its argument) or
    the GeoJSON object built by [wkx]. *)
Inductive Sanitized : Type :=
  | Plain (v : Value)
  | GeoJson (g : GeoJSON).

Definition sanitize (value : Value) : Completion Sanitized :=
  if negb (ToBoolean value) then Return (Plain VNull)
  else if negb (isString value) && negb (Buffer_isBuffer value) then
    Throw (Error "Invalid value for GEOMETRY type. Expected string or buffer.")
  else
    let sanitizedValue := value in
    if Nat.eqb (length_of sanitizedValue) 0 then Return (Plain value)
    else
      let sanitizedValue :=
        match sanitizedValue with
        | VBuffer b => VBuffer (Buffer_subarray b 4)
        | _ => sanitizedValue
        end in
      bind (wkx_Geometry_parse sanitizedValue)
           (fun g => Return (GeoJson (toGeoJSON g {| shortCrs := true |}))).

End WithWkx.
End GEOMETRY.

Module ENUM.

Record t : Type := mkENUM { values : list string }.

Record ToSqlOptions : Type := mkToSqlOptions { dialect : AbstractDialect.Methods }.

Definition toSql (this : t) (options : ToSqlOptions) : string :=
  "ENUM("
  +:+ Array_join
        (map (fun value => AbstractDialect.call_escapeString (dialect options) value)
             (values this))
        ", "
  +:+ ")".

End ENUM.

Module DECIMAL.
Section WithBase.

(** The DECIMAL instances and the options [toSql] is called with. *)
Variables Instance ToSqlOptions : Type.

(** [toSql] of the base DECIMAL type (not among the sources). *)
Variable super_toSql : Instance -> ToSqlOptions -> string.

(** Truthiness of [this.options.unsigned] and [this.options.zerofill]. *)
Variables unsigned zerofill : Instance -> bool.

Definition toSql (this : Instance) (options : ToSqlOptions) : string :=
  let definition := super_toSql this options in
  let definition := if unsigned this then definition +:+ " UNSIGNED" else definition in
  let definition := if zerofill this then definition +:+ " ZEROFILL" else definition in
  definition.

End WithBase.
End DECIMAL.

Module DATE_input.

(** The optional second argument of [DATE.sanitize]; [None] is a missing
    [timezone] key. *)
Record SanitizeOptions : Type := mkSanitizeOptions { timezone : option string }.

(** [options?.timezone], kept when it is truthy. *)
Definition timezone_given (options : option SanitizeOptions) : option string :=
  match options with
  | None => None
  | Some o =>
      match timezone o with
      | None => None
      | Some tz => if ToBoolean (VString tz) then Some tz else None
      end
  end.

Section WithDates.

(** What the branches produce (dates, or whatever the base type returns),
    the time-zone test of the utilities, [dayjs.tz(value, zone).toDate()],
    [new Date(text)] and [sanitize] of the base DATE type; none of them is
    among the sources. *)
Variable Out : Type.
Variable isValidTimeZone : string -> bool.
Variable dayjs_tz_toDate : string -> string -> Out.
Variable new_Date : string -> Out.
Variable super_sanitize : Value -> Out.

Definition sanitize (value : Value) (options : option SanitizeOptions) : Out :=
  match value, GEOMETRY.isString value, timezone_given options with
  | VString text, true, Some zone =>
      if isValidTimeZone zone then dayjs_tz_toDate text zone
      else new_Date (text +:+ " " +:+ zone)
  | _, _, _ => super_sanitize value
  end.

End WithDates.
End DATE_input.

End MySql.

(** ** Vocabulary of the specification *)

Module Outcome.
Section WithWkx.

Variables Geometry GeoJSON : Type.
Variable parse : Value -> Completion Geometry.
Variable toGeoJSON : Geometry -> MySql.GEOMETRY.ToGeoJSONOptions -> GeoJSON.

(** "Parsed as well-known-binary geometry and converted to a GeoJSON
    structure with short-form CRS": errors of the parser propagate, a
    parsed geometry is converted with [shortCrs] set. *)
Definition parsed_as_geojson (input : Value)
    : Completion (MySql.GEOMETRY.Sanitized GeoJSON) :=
  match parse input with
  | Throw e => Throw e
  | Return g =>
      Return (MySql.GEOMETRY.GeoJson GeoJSON
                (toGeoJSON g {| MySql.GEOMETRY.shortCrs := true |}))
  end.

End WithWkx.

(** "Every ['] doubled": the text in which each quote character stands
    twice and every other character once, in the order of the input. *)
Definition doubled_quotes (s : string) : string :=
  string_of_list_ascii
    (flat_map (fun c : ascii => if Ascii.eqb c "'" then ["'"; "'"]%char else [c])
              (list_ascii_of_string s)).

(** Reading a doubled text back: a pair of quotes stands for one quote. *)
Fixpoint undouble_quotes (s : string) : string :=
  match s with
  | EmptyString => EmptyString
  | String c r =>
      String c
        match r with
        | EmptyString => EmptyString
        | String c' r' =>
            if Ascii.eqb c "'" && Ascii.eqb c' "'" then undouble_quotes r'
            else undouble_quotes r
        end
  end.

(** The characters of [s] that are not quotes, in order. *)
Definition without_quotes (s : string) : list ascii :=
  List.filter (fun c : ascii => negb (Ascii.eqb c "'")) (list_ascii_of_string s).

Definition count_quotes (s : string) : nat :=
  length (List.filter (fun c : ascii => Ascii.eqb c "'") (list_ascii_of_string s)).

(** The reference of the base class a declared type says it replaces. *)
Definition marker_ref (dataType : AbstractDialect.DataTypeClass) : option positive :=
  AbstractDialect.ref <$> AbstractDialect.kIsDataTypeOverrideOf dataType.

(** "Every declared type carries its marker and no two declared types
    carry the same one". *)
Definition well_declared (values : list AbstractDialect.DataTypeClass) : Prop :=
  Forall (fun dataType => is_Some (AbstractDialect.kIsDataTypeOverrideOf dataType)) values
  /\ NoDup (marker_ref <$> values).

(** "Some declared type class carries no marker". *)
Definition some_unmarked (values : list AbstractDialect.DataTypeClass) : Prop :=
  exists dataType, dataType ∈ values
    /\ AbstractDialect.kIsDataTypeOverrideOf dataType = None.

(** "Two declared type classes carry the same base-type marker". *)
Definition some_shared_marker (values : list AbstractDialect.DataTypeClass) : Prop :=
  exists (i j : nat) (first second : AbstractDialect.DataTypeClass)
         (base base' : AbstractDialect.Class),
    i <> j /\ values !! i = Some first /\ values !! j = Some second
    /\ AbstractDialect.kIsDataTypeOverrideOf first = Some base
    /\ AbstractDialect.kIsDataTypeOverrideOf second = Some base'
    /\ AbstractDialect.ref base = AbstractDialect.ref base'.

(** The map the loop has built after running over [values] from [acc]
    without throwing. *)
Definition overrides_of (values : list AbstractDialect.DataTypeClass)
    (acc : gmap positive AbstractDialect.DataTypeClass)
    : gmap positive AbstractDialect.DataTypeClass :=
  foldl (fun m dataType =>
           match AbstractDialect.kIsDataTypeOverrideOf dataType with
           | Some base => <[AbstractDialect.ref base := dataType]> m
           | None => m
           end) acc values.

Definition is_digit (c : ascii) : bool :=
  let n := N_of_ascii c in (48 <=? n)%N && (n <=? 57)%N.

(** "Exactly [width] digits". *)
Definition digits_of_width (width : nat) (s : string) : bool :=
  Nat.eqb (String.length s) width && forallb is_digit (list_ascii_of_string s).

(** "Lowercase hexadecimal encoding, two digits per byte": each byte is
    written as the digit of its quotient by sixteen followed by the digit
    of its remainder, digits taken from the lowercase alphabet. *)
Definition hex_alphabet : list ascii := list_ascii_of_string "0123456789abcdef".

Definition hex_pair (b : byte) : string :=
  let n := N.to_nat (Byte.to_N b) in
  String (nth (n / 16) hex_alphabet "?"%char)
    (String (nth (n mod 16) hex_alphabet "?"%char) EmptyString).

Definition lowercase_hex (buffer : list byte) : string :=
  String.concat "" (map hex_pair buffer).

(** The value of a lowercase hexadecimal digit. *)
Definition hex_value (c : ascii) : option N :=
  let n := N_of_ascii c in
  if (48 <=? n)%N && (n <=? 57)%N then Some (n - 48)%N
  else if (97 <=? n)%N && (n <=? 102)%N then Some (n - 87)%N
  else None.

(** Decoding a hexadecimal text back into bytes. *)
Fixpoint decode_hex (s : string) : option (list byte) :=
  match s with
  | EmptyString => Some []
  | String _ EmptyString => None
  | String hi (String lo r) =>
      match hex_value hi, hex_value lo, decode_hex r with
      | Some h, Some l, Some bytes =>
          match Byte.of_N (16 * h + l) with
          | Some b => Some (b :: bytes)
          | None => None
          end
      | _, _, _ => None
      end
  end.

End Outcome.

(** ** Reading literals back *)

Module Lexical.

(** The body of a quoted SQL string literal, read after its opening
    quote: a pair of quotes is one quote of the text, a single quote ends
    the literal.  The result is the text and what follows the literal;
    [None] when the literal is not closed. *)
Fixpoint scan_body (s : string) : option (string * string) :=
  match s with
  | EmptyString => None
  | String c r =>
      if Ascii.eqb c "'" then
        match r with
        | EmptyString => Some (EmptyString, EmptyString)
        | String c' r' =>
            if Ascii.eqb c' "'" then
              match scan_body r' with
              | Some (text, rest) => Some (String "'" text, rest)
              | None => None
              end
            else Some (EmptyString, r)
        end
      else
        match scan_body r with
        | Some (text, rest) => Some (String c text, rest)
        | None => None
        end
  end.

Definition scan_literal (s : string) : option (string * string) :=
  match s with
  | EmptyString => None
  | String c r => if Ascii.eqb c "'" then scan_body r else None
  end.

Definition starts_with_quote (s : string) : bool :=
  match s with
  | EmptyString => false
  | String c _ => Ascii.eqb c "'"
  end.

(** The members of an ENUM definition, read from the first literal on:
    literals separated by a comma and a space, closed by a parenthesis. *)
Fixpoint scan_members (fuel : nat) (s : string) : option (list string) :=
  match fuel with
  | O => None
  | S fuel' =>
      match scan_literal s with
      | None => None
      | Some (text, rest) =>
          match rest with
          | String c EmptyString =>
              if Ascii.eqb c ")" then Some [text] else None
          | String c (String c' rest') =>
              if Ascii.eqb c "," && Ascii.eqb c' " " then
                match scan_members fuel' rest' with
                | Some members => Some (text :: members)
                | None => None
                end
              else None
          | EmptyString => None
          end
      end
  end.

(** Reading an [ENUM(...)] definition back into its members. *)
Definition read_enum (s : string) : option (list string) :=
  if String.prefix "ENUM(" s then
    let body := String.substring 5 (String.length s - 5) s in
    if String.eqb body ")" then Some []
    else scan_members (String.length s) body
  else None.

End Lexical.

(** ** Instances a program can hold *)

Module Registry.

(** The cache of an instance agrees with its declarations: it is empty,
    or it holds the map of well-formed declarations. *)
Definition coherent (this : AbstractDialect.t) : Prop :=
  match AbstractDialect.dataTypeOverridesCache this with
  | None => True
  | Some cached =>
      Outcome.well_declared (AbstractDialect.Object_values (AbstractDialect.DataTypes this))
      /\ cached
         = Outcome.overrides_of
             (AbstractDialect.Object_values (AbstractDialect.DataTypes this)) ∅
  end.

End Registry.

(** ** Concrete inputs used by the examples below *)

Module Examples.

(** Base classes and dialect-specific classes. *)
Definition BaseBOOLEAN : AbstractDialect.Class := AbstractDialect.mkClass 1 "BOOLEAN".
Definition BaseUUID : AbstractDialect.Class := AbstractDialect.mkClass 2 "UUID".

Definition MyBOOLEAN : AbstractDialect.DataTypeClass :=
  AbstractDialect.mkDataTypeClass (AbstractDialect.mkClass 11 "BOOLEAN") (Some BaseBOOLEAN).
Definition MyTINYINT : AbstractDialect.DataTypeClass :=
  AbstractDialect.mkDataTypeClass (AbstractDialect.mkClass 12 "TINYINT") (Some BaseBOOLEAN).
Definition MyUUID : AbstractDialect.DataTypeClass :=
  AbstractDialect.mkDataTypeClass (AbstractDialect.mkClass 13 "UUID") (Some BaseUUID).
Definition MyPOINT : AbstractDialect.DataTypeClass :=
  AbstractDialect.mkDataTypeClass (AbstractDialect.mkClass 14 "POINT") None.

(** A dialect whose declarations resolve. *)
Definition sound_dialect : AbstractDialect.t :=
  AbstractDialect.mkDialect "mysql" [("BOOLEAN", MyBOOLEAN); ("UUID", MyUUID)] None.

(** A dialect that declares two replacements of BOOLEAN and, after them,
    a type without marker. *)
Definition clashing_dialect : AbstractDialect.t :=
  AbstractDialect.mkDialect "mysql"
    [("BOOLEAN", MyBOOLEAN); ("TINYINT", MyTINYINT); ("POINT", MyPOINT)] None.

(** The declarations of [sound_dialect] in the other order. *)
Definition sound_dialect_reordered : AbstractDialect.t :=
  AbstractDialect.mkDialect "mysql" [("UUID", MyUUID); ("BOOLEAN", MyBOOLEAN)] None.

(** Midnight of the first of January of the given year plus some
    milliseconds, standing in for [_applyTimezone] on dates far from the
    present. *)
Definition new_year_stub (year : Z) (ms : Z) : Dayjs.t :=
  {| Dayjs.isValid := true;
     Dayjs.year := year; Dayjs.month0 := 0; Dayjs.day := 1;
     Dayjs.hour := 0; Dayjs.minute := 0; Dayjs.second := 0;
     Dayjs.millisecond := ms mod 1000 |}.

(** A renderer standing in for [NodeUtil.inspect]. *)
Definition inspect_stub (v : Value) : string :=
  match v with
  | VString s => "'" +:+ s +:+ "'"
  | VNull => "null"
  | VUndefined => "undefined"
  | _ => "[value]"
  end.

(** A parser standing in for [wkx.Geometry.parse]: it accepts buffers
    that start with a byte-order mark and keeps their bytes. *)
Definition parse_stub (v : Value) : Completion (list byte) :=
  match v with
  | VBuffer (b :: r) =>
      if Byte.eqb b x01 || Byte.eqb b x00 then Return (b :: r)
      else Throw (Error "Could not parse")
  | _ => Throw (Error "Could not parse")
  end.

Definition toGeoJSON_stub (g : list byte) (o : MySql.GEOMETRY.ToGeoJSONOptions)
    : list byte * bool :=
  (g, MySql.GEOMETRY.shortCrs o).

(** Four bytes of SRID followed by a one-byte body. *)
Definition srid_prefixed : list byte := [xe6; x10; x00; x00; x01].

End Examples.

(** * Properties *)

(** ** MySQL BOOLEAN *)

(** C3. [BOOLEAN.toBindableValue] maps [true] to the one-character string
    "1" and [false] to the one-character string "0"; on every value that
    is neither of the two booleans it throws an error whose message ends
    with the rendering of that value by [inspect]. *)
Theorem BOOLEAN_toBindableValue_spec (inspect : Value -> string) :
  MySql.BOOLEAN.toBindableValue inspect (VBool true) = Return (String "1" EmptyString)
  /\ MySql.BOOLEAN.toBindableValue inspect (VBool false) = Return (String "0" EmptyString)
  /\ forall v : Value,
       v <> VBool true -> v <> VBool false ->
       MySql.BOOLEAN.toBindableValue inspect v
       = Throw (Error ("Unsupported value for BOOLEAN: " +:+ inspect v)).
Proof.
  split; [reflexivity | split; [reflexivity |]].
  intros v Ht Hf. unfold MySql.BOOLEAN.toBindableValue.
  destruct v as [ | | [|] | | | | | | ]; try reflexivity; congruence.
Qed.

Lemma BOOLEAN_toBindableValue_witness :
  VString "1" <> VBool true /\ VString "1" <> VBool false
  /\ MySql.BOOLEAN.toBindableValue Examples.inspect_stub (VString "1")
     = Throw (Error "Unsupported value for BOOLEAN: '1'").
Proof.
  split; [discriminate | split; [discriminate |]].
  apply (proj2 (proj2 (BOOLEAN_toBindableValue_spec Examples.inspect_stub)));
    discriminate.
Defined.

(** ** MySQL GEOMETRY *)

Section GeometrySanitize.

Variables Geometry GeoJSON : Type.
Variable parse : Value -> Completion Geometry.
Variable toGeoJSON : Geometry -> MySql.GEOMETRY.ToGeoJSONOptions -> GeoJSON.

Let sanitize := MySql.GEOMETRY.sanitize Geometry GeoJSON parse toGeoJSON.
Let Plain := MySql.GEOMETRY.Plain GeoJSON.
Let parsed_as_geojson := Outcome.parsed_as_geojson Geometry GeoJSON parse toGeoJSON.

Lemma sanitize_buffer_unfold (b : list byte) :
  sanitize (VBuffer b)
  = match b with
    | [] => Return (Plain (VBuffer []))
    | _ :: _ => parsed_as_geojson (VBuffer (drop 4 b))
    end.
Proof.
  destruct b as [|x r]; [reflexivity |].
  unfold sanitize, MySql.GEOMETRY.sanitize, parsed_as_geojson,
    Outcome.parsed_as_geojson, bind; simpl.
  destruct (parse _); reflexivity.
Qed.

(** C4. [GEOMETRY.sanitize] returns an empty buffer unchanged; on a
    non-empty buffer it hands the parser the buffer without its first
    four bytes (so [prefix ++ rest] with a four-byte [prefix] is parsed
    as [rest]) and converts the parsed geometry to GeoJSON with
    [shortCrs] set. *)
Theorem GEOMETRY_sanitize_buffer (b : list byte) :
  sanitize (VBuffer []) = Return (Plain (VBuffer []))
  /\ (b <> [] -> sanitize (VBuffer b) = parsed_as_geojson (VBuffer (drop 4 b)))
  /\ (forall prefix rest : list byte,
        b = prefix ++ rest -> length prefix = 4 ->
        sanitize (VBuffer b) = parsed_as_geojson (VBuffer rest)).
Proof.
  split; [reflexivity | split].
  - intros Hne. rewrite sanitize_buffer_unfold.
    destruct b; [congruence | reflexivity].
  - intros prefix rest -> Hlen. rewrite sanitize_buffer_unfold.
    destruct prefix as [|p0 prefix]; [discriminate Hlen |].
    change ((p0 :: prefix) ++ rest) with (p0 :: (prefix ++ rest)).
    cbv iota. rewrite app_comm_cons.
    rewrite drop_app_length'; [reflexivity | symmetry; exact Hlen].
Qed.

(** C10. [GEOMETRY.sanitize] returns [null] on every falsy value, among
    them [null], [undefined], [false], the number zero and the empty
    string, and throws "Expected string or buffer" on every truthy value
    that is neither a string nor a buffer. *)
Theorem GEOMETRY_sanitize_falsy_or_rejected (v : Value) :
  (ToBoolean v = false -> sanitize v = Return (Plain VNull))
  /\ (ToBoolean v = true -> typeof_string v = false -> Buffer_isBuffer v = false ->
      sanitize v
      = Throw (Error "Invalid value for GEOMETRY type. Expected string or buffer."))
  /\ sanitize VNull = Return (Plain VNull)
  /\ sanitize VUndefined = Return (Plain VNull)
  /\ sanitize (VBool false) = Return (Plain VNull)
  /\ sanitize (VNumber (S754_zero false)) = Return (Plain VNull)
  /\ sanitize (VString "") = Return (Plain VNull).
Proof.
  repeat split; try reflexivity.
  - intros Hf. unfold sanitize, MySql.GEOMETRY.sanitize. rewrite Hf. reflexivity.
  - intros Ht Hs Hb. unfold sanitize, MySql.GEOMETRY.sanitize, MySql.GEOMETRY.isString.
    rewrite Ht, Hs, Hb. reflexivity.
Qed.

End GeometrySanitize.

Lemma GEOMETRY_sanitize_buffer_witness :
  Examples.srid_prefixed <> []
  /\ MySql.GEOMETRY.sanitize _ _ Examples.parse_stub Examples.toGeoJSON_stub
       (VBuffer Examples.srid_prefixed)
     = Return (MySql.GEOMETRY.GeoJson _ ([x01]%byte, true)).
Proof.
  split; [discriminate |].
  apply (proj1 (proj2 (GEOMETRY_sanitize_buffer _ _ Examples.parse_stub
                         Examples.toGeoJSON_stub Examples.srid_prefixed))).
  discriminate.
Defined.

Lemma GEOMETRY_sanitize_falsy_or_rejected_witness :
  ToBoolean (VObject 1) = true
  /\ typeof_string (VObject 1) = false
  /\ Buffer_isBuffer (VObject 1) = false
  /\ MySql.GEOMETRY.sanitize _ _ Examples.parse_stub Examples.toGeoJSON_stub (VObject 1)
     = Throw (Error "Invalid value for GEOMETRY type. Expected string or buffer.").
Proof.
  repeat (split; [reflexivity |]).
  apply (proj1 (proj2 (GEOMETRY_sanitize_falsy_or_rejected _ _ Examples.parse_stub
                         Examples.toGeoJSON_stub (VObject 1)))); reflexivity.
Defined.

(** The check of the constructor, read off its guard. *)
Lemma GEOMETRY_constructor_unfold (ty : option string) (srid : option Z) :
  MySql.GEOMETRY.constructor ty srid
  = if MySql.GEOMETRY.type_given ty && negb (MySql.GEOMETRY.type_supported ty)
    then Throw (Error "Supported geometry types are: POINT, LINESTRING, POLYGON")
    else Return (MySql.GEOMETRY.super ty srid).
Proof. reflexivity. Qed.

Lemma Array_includes_In (l : list string) (x : string) :
  Array_includes l x = true <-> In x l.
Proof.
  unfold Array_includes. rewrite existsb_exists. split.
  - intros (y & Hy & Heq). apply String.eqb_eq in Heq. now subst.
  - intros Hin. exists x. split; [assumption | apply String.eqb_refl].
Qed.

(** C9. Constructing GEOMETRY with a geometry subtype (a non-empty name)
    outside POINT, LINESTRING, POLYGON throws, at construction, the error
    that lists the supported subtypes; with one of the three it returns
    the instance carrying that subtype and SRID.  When no subtype is
    given (the argument is absent or empty) there is nothing to check and
    the instance is returned.  Hence every constructed instance has
    either no subtype or a supported one: an unsupported subtype never
    reaches first use. *)
Theorem GEOMETRY_constructor_validates (ty : string) (srid : option Z) :
  (ty <> "" -> ~ In ty MySql.GEOMETRY.SUPPORTED_GEOMETRY_TYPES ->
   MySql.GEOMETRY.constructor (Some ty) srid
   = Throw (Error "Supported geometry types are: POINT, LINESTRING, POLYGON"))
  /\ (In ty MySql.GEOMETRY.SUPPORTED_GEOMETRY_TYPES ->
      MySql.GEOMETRY.constructor (Some ty) srid
      = Return (MySql.GEOMETRY.mkGEOMETRY (MySql.GEOMETRY.mkOptions (Some ty) srid)))
  /\ MySql.GEOMETRY.constructor (Some "") srid
     = Return (MySql.GEOMETRY.mkGEOMETRY (MySql.GEOMETRY.mkOptions (Some "") srid))
  /\ MySql.GEOMETRY.constructor None srid
     = Return (MySql.GEOMETRY.mkGEOMETRY (MySql.GEOMETRY.mkOptions None srid))
  /\ (forall (given : option string) (this : MySql.GEOMETRY.t),
        MySql.GEOMETRY.constructor given srid = Return this ->
        MySql.GEOMETRY.type (MySql.GEOMETRY.options this) = given
        /\ (given = None \/ given = Some ""
            \/ exists s, given = Some s /\ In s MySql.GEOMETRY.SUPPORTED_GEOMETRY_TYPES)).
Proof.
  split; [| split; [| split; [reflexivity | split; [reflexivity |]]]].
  - intros Hne Hnot. rewrite GEOMETRY_constructor_unfold.
    assert (Hg : MySql.GEOMETRY.type_given (Some ty) = true).
    { destruct ty; [congruence | reflexivity]. }
    assert (Hs : MySql.GEOMETRY.type_supported (Some ty) = false).
    { unfold MySql.GEOMETRY.type_supported.
      destruct (Array_includes MySql.GEOMETRY.SUPPORTED_GEOMETRY_TYPES ty) eqn:E;
        [| reflexivity].
      apply (proj1 (Array_includes_In _ _)) in E. contradiction. }
    rewrite Hg, Hs. reflexivity.
  - intros Hin. rewrite GEOMETRY_constructor_unfold.
    assert (Hs : MySql.GEOMETRY.type_supported (Some ty) = true)
      by (apply (proj2 (Array_includes_In _ _)); exact Hin).
    rewrite Hs, andb_false_r. reflexivity.
  - intros given this. rewrite GEOMETRY_constructor_unfold.
    destruct (MySql.GEOMETRY.type_given given) eqn:Hg;
      destruct (MySql.GEOMETRY.type_supported given) eqn:Hs; cbn [andb negb];
      intros H; try discriminate H; injection H as <-; (split; [reflexivity |]).
    + destruct given as [s|]; [| discriminate Hs].
      right; right. exists s. split; [reflexivity |].
      apply (proj1 (Array_includes_In _ _)). exact Hs.
    + destruct given as [s|]; [| discriminate Hs].
      right; right. exists s. split; [reflexivity |].
      apply (proj1 (Array_includes_In _ _)). exact Hs.
    + destruct given as [[|c s]|];
        [right; left; reflexivity | discriminate Hg | left; reflexivity].
Qed.

Lemma GEOMETRY_constructor_validates_witness :
  "MULTIPOINT" <> ""
  /\ ~ In "MULTIPOINT" MySql.GEOMETRY.SUPPORTED_GEOMETRY_TYPES
  /\ MySql.GEOMETRY.constructor (Some "MULTIPOINT") (Some 4326%Z)
     = Throw (Error "Supported geometry types are: POINT, LINESTRING, POLYGON").
Proof.
  assert (Hne : "MULTIPOINT" <> "") by discriminate.
  assert (Hnot : ~ In "MULTIPOINT" MySql.GEOMETRY.SUPPORTED_GEOMETRY_TYPES)
    by (intros [E | [E | [E | []]]]; discriminate E).
  split; [exact Hne | split; [exact Hnot |]].
  exact (proj1 (GEOMETRY_constructor_validates "MULTIPOINT" (Some 4326%Z)) Hne Hnot).
Defined.

(** ** String and buffer literals of the abstract dialect *)

Lemma replace_quote_doubled (s : string) :
  replace_char_global "'" "''" s = Outcome.doubled_quotes s.
Proof.
  unfold Outcome.doubled_quotes.
  induction s as [|c r IH]; [reflexivity |].
  cbn [replace_char_global list_ascii_of_string flat_map].
  destruct (Ascii.eqb c "'"); rewrite IH; reflexivity.
Qed.

Lemma undouble_doubled (s : string) :
  Outcome.undouble_quotes (replace_char_global "'" "''" s) = s.
Proof.
  induction s as [|c r IH]; [reflexivity |].
  cbn [replace_char_global].
  destruct (Ascii.eqb c "'") eqn:E.
  - apply Ascii.eqb_eq in E. subst c.
    change (Outcome.undouble_quotes
              (String "'" (String "'" (replace_char_global "'" "''" r)))
            = String "'" r).
    cbn [Outcome.undouble_quotes]. rewrite Ascii.eqb_refl. cbn [andb].
    f_equal. exact IH.
  - cbn [Outcome.undouble_quotes]. rewrite E. cbn [andb].
    f_equal.
    destruct (replace_char_global "'" "''" r) as [|c' r'] eqn:Er.
    + rewrite <- IH. reflexivity.
    + rewrite <- IH. reflexivity.
Qed.

Lemma append_cons (c : ascii) (a b : string) :
  String c a +:+ b = String c (a +:+ b).
Proof. reflexivity. Qed.

Lemma append_empty_r (a : string) : a +:+ "" = a.
Proof.
  induction a as [|c a IH]; [reflexivity |].
  now rewrite append_cons, IH.
Qed.

Lemma length_append (a b : string) :
  String.length (a +:+ b) = String.length a + String.length b.
Proof.
  induction a as [|c a IH]; [reflexivity |].
  rewrite append_cons. cbn [String.length]. now rewrite IH.
Qed.

Lemma replace_quote_keeps_others (s : string) :
  Outcome.without_quotes (replace_char_global "'" "''" s) = Outcome.without_quotes s.
Proof.
  unfold Outcome.without_quotes.
  induction s as [|c r IH]; [reflexivity |].
  cbn [replace_char_global].
  destruct (Ascii.eqb c "'") eqn:E.
  - apply Ascii.eqb_eq in E. subst c. simpl. exact IH.
  - cbn [list_ascii_of_string List.filter]. rewrite E. cbn [negb]. now rewrite IH.
Qed.

Lemma replace_quote_length (s : string) :
  String.length (replace_char_global "'" "''" s)
  = String.length s + Outcome.count_quotes s.
Proof.
  unfold Outcome.count_quotes.
  induction s as [|c r IH]; [reflexivity |].
  cbn [replace_char_global list_ascii_of_string List.filter].
  destruct (Ascii.eqb c "'") eqn:E.
  - change ("''" +:+ replace_char_global "'" "''" r)
      with (String "'" (String "'" (replace_char_global "'" "''" r))).
    cbn [String.length length]. rewrite IH. lia.
  - cbn [String.length]. rewrite IH. lia.
Qed.

(** C5. [escapeString] returns a quote, the input with every quote
    doubled and every other character kept as it is and where it is, and
    a closing quote: the body reads back as the input, its characters
    other than quotes are those of the input, and it is longer than the
    input by the number of quotes in it. *)
Theorem escapeString_doubles_and_wraps (value : string) :
  exists body : string,
    AbstractDialect.escapeString value = "'" +:+ body +:+ "'"
    /\ body = Outcome.doubled_quotes value
    /\ Outcome.undouble_quotes body = value
    /\ Outcome.without_quotes body = Outcome.without_quotes value
    /\ String.length body = String.length value + Outcome.count_quotes value.
Proof.
  exists (replace_char_global "'" "''" value).
  split; [reflexivity |].
  split; [apply replace_quote_doubled |].
  split; [apply undouble_doubled |].
  split; [apply replace_quote_keeps_others | apply replace_quote_length].
Qed.

Lemma hex_of_byte (b : byte) :
  String (hex_digit (N.shiftr (Byte.to_N b) 4))
    (String (hex_digit (N.land (Byte.to_N b) 15)) EmptyString)
  = Outcome.hex_pair b.
Proof. destruct b; vm_compute; reflexivity. Qed.

Lemma hex_digits_read_back (b : byte) :
  Outcome.hex_value (hex_digit (N.shiftr (Byte.to_N b) 4))
  = Some (N.shiftr (Byte.to_N b) 4)
  /\ Outcome.hex_value (hex_digit (N.land (Byte.to_N b) 15))
     = Some (N.land (Byte.to_N b) 15)
  /\ Byte.of_N (16 * N.shiftr (Byte.to_N b) 4 + N.land (Byte.to_N b) 15) = Some b.
Proof. destruct b; vm_compute; repeat split; reflexivity. Qed.

Lemma hex_digits_in_alphabet (b : byte) :
  In (hex_digit (N.shiftr (Byte.to_N b) 4)) Outcome.hex_alphabet
  /\ In (hex_digit (N.land (Byte.to_N b) 15)) Outcome.hex_alphabet.
Proof.
  assert (H : forall n : N, (n < 16)%N -> In (hex_digit n) Outcome.hex_alphabet).
  { intros n Hn. unfold Outcome.hex_alphabet. cbn [list_ascii_of_string].
    destruct n as [|p]; [simpl; tauto |].
    do 4 (destruct p as [p|p|]; try lia; simpl; try tauto). }
  split; apply H.
  - destruct b; vm_compute; reflexivity.
  - destruct b; vm_compute; reflexivity.
Qed.

Lemma toString_hex_lowercase (buffer : list byte) :
  Buffer_toString_hex buffer = Outcome.lowercase_hex buffer.
Proof.
  unfold Outcome.lowercase_hex.
  induction buffer as [|b r IH]; [reflexivity |].
  cbn [Buffer_toString_hex map]. rewrite IH.
  change (String.concat "" (Outcome.hex_pair b :: map Outcome.hex_pair r))
    with (match map Outcome.hex_pair r with
          | [] => Outcome.hex_pair b
          | _ :: _ => Outcome.hex_pair b +:+ "" +:+ String.concat "" (map Outcome.hex_pair r)
          end).
  rewrite <- hex_of_byte.
  destruct r as [|b' r']; reflexivity.
Qed.

Lemma toString_hex_length (buffer : list byte) :
  String.length (Buffer_toString_hex buffer) = 2 * length buffer.
Proof.
  induction buffer as [|b r IH]; [reflexivity |].
  cbn [Buffer_toString_hex String.length length]. rewrite IH. lia.
Qed.

Lemma toString_hex_decodes (buffer : list byte) :
  Outcome.decode_hex (Buffer_toString_hex buffer) = Some buffer.
Proof.
  induction buffer as [|b r IH]; [reflexivity |].
  cbn [Buffer_toString_hex Outcome.decode_hex].
  destruct (hex_digits_read_back b) as (Hh & Hl & Hb).
  rewrite Hh, Hl, IH, Hb. reflexivity.
Qed.

Lemma toString_hex_alphabet (buffer : list byte) :
  Forall (fun c => In c Outcome.hex_alphabet)
         (list_ascii_of_string (Buffer_toString_hex buffer)).
Proof.
  induction buffer as [|b r IH]; [constructor |].
  cbn [Buffer_toString_hex list_ascii_of_string].
  destruct (hex_digits_in_alphabet b) as [Hh Hl].
  constructor; [exact Hh | constructor; [exact Hl | exact IH]].
Qed.

(** C8. [escapeBuffer] returns [X'h'] where [h] is the lowercase
    hexadecimal encoding of the bytes in order: two digits per byte, all
    from 0-9a-f, decoding back to the buffer, and empty for the empty
    buffer. *)
Theorem escapeBuffer_hex_literal (buffer : list byte) :
  exists h : string,
    AbstractDialect.escapeBuffer buffer = "X'" +:+ h +:+ "'"
    /\ h = Outcome.lowercase_hex buffer
    /\ String.length h = 2 * length buffer
    /\ Forall (fun c => In c Outcome.hex_alphabet) (list_ascii_of_string h)
    /\ Outcome.decode_hex h = Some buffer
    /\ AbstractDialect.escapeBuffer [] = "X''".
Proof.
  exists (Buffer_toString_hex buffer).
  split; [reflexivity |].
  split; [apply toString_hex_lowercase |].
  split; [apply toString_hex_length |].
  split; [apply toString_hex_alphabet |].
  split; [apply toString_hex_decodes | reflexivity].
Qed.

(** ** MySQL ENUM *)

Lemma join_from_started (sep : string) (l : list string) :
  join_from sep true l
  = match l with [] => "" | _ :: _ => sep +:+ String.concat sep l end.
Proof.
  induction l as [|x r IH]; [reflexivity |].
  cbn [join_from]. rewrite IH.
  destruct r as [|y r']; cbn [String.concat]; [| reflexivity].
  now rewrite append_empty_r.
Qed.

Lemma Array_join_concat (l : list string) (sep : string) :
  Array_join l sep = String.concat sep l.
Proof.
  unfold Array_join. destruct l as [|x r]; [reflexivity |].
  cbn [join_from]. rewrite join_from_started.
  destruct r as [|y r']; cbn [String.concat]; [| reflexivity].
  change ("" +:+ x +:+ "") with (x +:+ "").
  apply append_empty_r.
Qed.

(** C7. [ENUM.toSql] is "ENUM(", then the members in declared order, each
    passed through the dialect's [escapeString] and separated by ", ",
    then ")"; under the inherited [escapeString] each member stands
    between quotes with its own quotes doubled. *)
Theorem ENUM_toSql_spec (this : MySql.ENUM.t) (options : MySql.ENUM.ToSqlOptions) :
  MySql.ENUM.toSql this options
  = "ENUM("
    +:+ String.concat ", "
          (map (AbstractDialect.call_escapeString (MySql.ENUM.dialect options))
               (MySql.ENUM.values this))
    +:+ ")"
  /\ MySql.ENUM.toSql this (MySql.ENUM.mkToSqlOptions AbstractDialect.inherited)
     = "ENUM("
       +:+ String.concat ", "
             (map (fun member => "'" +:+ Outcome.doubled_quotes member +:+ "'")
                  (MySql.ENUM.values this))
       +:+ ")".
Proof.
  split.
  - unfold MySql.ENUM.toSql. now rewrite Array_join_concat.
  - unfold MySql.ENUM.toSql. rewrite Array_join_concat. do 3 f_equal.
    apply map_ext. intros member. cbn.
    unfold AbstractDialect.escapeString. now rewrite replace_quote_doubled.
Qed.

(** ** MySQL DATE *)

Lemma padded_below (width : nat) (bound : nat) :
  forallb (fun k => Outcome.digits_of_width width (Dayjs.padded (Z.of_nat k) width))
          (seq 0 bound) = true ->
  forall n : Z, (0 <= n < Z.of_nat bound)%Z ->
    Outcome.digits_of_width width (Dayjs.padded n width) = true.
Proof.
  intros Hall n Hn. rewrite forallb_forall in Hall.
  rewrite <- (Z2Nat.id n) by lia. apply Hall.
  apply in_seq. lia.
Qed.

Lemma padded_two (n : Z) :
  (0 <= n < 100)%Z -> Outcome.digits_of_width 2 (Dayjs.padded n 2) = true.
Proof. apply (padded_below 2 100). vm_compute. reflexivity. Qed.

Lemma padded_three (n : Z) :
  (0 <= n < 1000)%Z -> Outcome.digits_of_width 3 (Dayjs.padded n 3) = true.
Proof. apply (padded_below 3 1000). vm_compute. reflexivity. Qed.

Lemma padded_four (n : Z) :
  (0 <= n < 10000)%Z -> Outcome.digits_of_width 4 (Dayjs.padded n 4) = true.
Proof.
  intros Hn. apply (padded_below 4 (100 * 100)); [vm_compute; reflexivity | lia].
Qed.

Lemma digits_of_width_length (width : nat) (s : string) :
  Outcome.digits_of_width width s = true -> String.length s = width.
Proof.
  unfold Outcome.digits_of_width. intros H.
  apply andb_prop in H as [H _]. now apply Nat.eqb_eq.
Qed.

Lemma format_bind_pattern (d : Dayjs.t) :
  Dayjs.isValid d = true ->
  Dayjs.format d "YYYY-MM-DD HH:mm:ss.SSS"
  = Dayjs.padded (Dayjs.year d) 4 +:+ "-" +:+ Dayjs.padded (Dayjs.month0 d + 1) 2
    +:+ "-" +:+ Dayjs.padded (Dayjs.day d) 2 +:+ " "
    +:+ Dayjs.padded (Dayjs.hour d) 2 +:+ ":" +:+ Dayjs.padded (Dayjs.minute d) 2
    +:+ ":" +:+ Dayjs.padded (Dayjs.second d) 2
    +:+ "." +:+ Dayjs.padded (Dayjs.millisecond d) 3.
Proof.
  intros Hv. unfold Dayjs.format. rewrite Hv.
  rewrite <- (append_empty_r (Dayjs.padded (Dayjs.millisecond d) 3)).
  reflexivity.
Qed.

Lemma length_string_of_list_ascii (l : list ascii) :
  String.length (string_of_list_ascii l) = length l.
Proof. induction l as [|c l IH]; [reflexivity | cbn; now rewrite IH]. Qed.

Lemma padded_at_least (n : Z) (width : nat) :
  width <= String.length (Dayjs.padded n width).
Proof.
  unfold Dayjs.padded, padStart.
  rewrite length_append, length_string_of_list_ascii, repeat_length. lia.
Qed.

Section DateBinding.

Variables AcceptedDate StringifyOptions : Type.
Variable _applyTimezone : AcceptedDate -> StringifyOptions -> Dayjs.t.

(** C6. [DATE.toBindableValue] renders the date returned by
    [_applyTimezone] for the given options, that is the date moved to the
    target time zone, as YYYY-MM-DD HH:mm:ss.SSS: the fields of the
    adjusted date in that order, the year padded to four characters at
    least, month, day, hour, minute and second as two digits each and the
    fraction of a second as exactly three digits, whatever the year.  For
    a year of at most four digits the whole is 23 characters long. *)
Theorem DATE_toBindableValue_format (date : AcceptedDate) (options : StringifyOptions) :
  let adjusted := _applyTimezone date options in
  Dayjs.isValid adjusted = true ->
  Dayjs.well_formed adjusted ->
  exists YYYY MM DD HH mm ss SSS : string,
    MySql.DATE.toBindableValue _ _ _applyTimezone date options
    = YYYY +:+ "-" +:+ MM +:+ "-" +:+ DD +:+ " " +:+ HH +:+ ":" +:+ mm +:+ ":" +:+ ss
      +:+ "." +:+ SSS
    /\ YYYY = Dayjs.padded (Dayjs.year adjusted) 4
    /\ MM = Dayjs.padded (Dayjs.month0 adjusted + 1) 2
    /\ DD = Dayjs.padded (Dayjs.day adjusted) 2
    /\ HH = Dayjs.padded (Dayjs.hour adjusted) 2
    /\ mm = Dayjs.padded (Dayjs.minute adjusted) 2
    /\ ss = Dayjs.padded (Dayjs.second adjusted) 2
    /\ SSS = Dayjs.padded (Dayjs.millisecond adjusted) 3
    /\ 4 <= String.length YYYY
    /\ Outcome.digits_of_width 2 MM = true
    /\ Outcome.digits_of_width 2 DD = true
    /\ Outcome.digits_of_width 2 HH = true
    /\ Outcome.digits_of_width 2 mm = true
    /\ Outcome.digits_of_width 2 ss = true
    /\ Outcome.digits_of_width 3 SSS = true
    /\ String.length (MySql.DATE.toBindableValue _ _ _applyTimezone date options)
       = String.length YYYY + 19
    /\ ((0 <= Dayjs.year adjusted <= 9999)%Z ->
        Outcome.digits_of_width 4 YYYY = true
        /\ String.length (MySql.DATE.toBindableValue _ _ _applyTimezone date options) = 23).
Proof.
  intros adjusted Hvalid (HM & HD & HH & Hm & Hs & Hms).
  assert (DM := padded_two (Dayjs.month0 adjusted + 1) ltac:(lia)).
  assert (DD := padded_two (Dayjs.day adjusted) ltac:(lia)).
  assert (DH := padded_two (Dayjs.hour adjusted) ltac:(lia)).
  assert (Dm := padded_two (Dayjs.minute adjusted) ltac:(lia)).
  assert (Ds := padded_two (Dayjs.second adjusted) ltac:(lia)).
  assert (Dms := padded_three (Dayjs.millisecond adjusted) ltac:(lia)).
  assert (Hlen : String.length (MySql.DATE.toBindableValue _ _ _applyTimezone date options)
                 = String.length (Dayjs.padded (Dayjs.year adjusted) 4) + 19).
  { unfold MySql.DATE.toBindableValue. fold adjusted.
    rewrite (format_bind_pattern adjusted Hvalid), !length_append.
    rewrite (digits_of_width_length _ _ DM), (digits_of_width_length _ _ DD),
      (digits_of_width_length _ _ DH), (digits_of_width_length _ _ Dm),
      (digits_of_width_length _ _ Ds), (digits_of_width_length _ _ Dms).
    cbn [String.length]. lia. }
  do 7 eexists.
  split; [unfold MySql.DATE.toBindableValue; apply format_bind_pattern; exact Hvalid |].
  do 7 (split; [reflexivity |]).
  split; [apply padded_at_least |].
  do 6 (split; [assumption |]).
  split; [exact Hlen |].
  intros Hy.
  assert (Dy := padded_four (Dayjs.year adjusted) ltac:(lia)).
  split; [exact Dy |].
  rewrite Hlen, (digits_of_width_length _ _ Dy). reflexivity.
Qed.

End DateBinding.

Lemma DATE_toBindableValue_format_witness :
  Dayjs.isValid (Examples.new_year_stub 12345 7) = true
  /\ Dayjs.well_formed (Examples.new_year_stub 12345 7)
  /\ MySql.DATE.toBindableValue _ _ Examples.new_year_stub 12345%Z 7%Z
     = "12345-01-01 00:00:00.007".
Proof.
  assert (Hv : Dayjs.isValid (Examples.new_year_stub 12345 7) = true) by reflexivity.
  assert (Hw : Dayjs.well_formed (Examples.new_year_stub 12345 7))
    by (vm_compute; repeat split; discriminate).
  split; [exact Hv | split; [exact Hw |]].
  destruct (DATE_toBindableValue_format _ _ Examples.new_year_stub 12345%Z 7%Z Hv Hw)
    as (YYYY & MM & DD & HH & mm & ss & SSS & Heq & -> & -> & -> & -> & -> & -> & -> & _).
  rewrite Heq. vm_compute. reflexivity.
Defined.

(** ** The override registry *)

Section CollectOverrides.

Import AbstractDialect.

Variable dialect : string.

Implicit Types (values pre post : list DataTypeClass) (acc : Overrides).

Lemma overrides_of_snoc values acc dataType :
  Outcome.overrides_of (values ++ [dataType]) acc
  = match kIsDataTypeOverrideOf dataType with
    | Some base => <[ref base := dataType]> (Outcome.overrides_of values acc)
    | None => Outcome.overrides_of values acc
    end.
Proof. unfold Outcome.overrides_of. now rewrite foldl_app. Qed.

(** Keys of the map built so far: those already there and the markers
    seen. *)
Lemma overrides_of_is_Some values acc (k : positive) :
  is_Some (Outcome.overrides_of values acc !! k)
  <-> is_Some (acc !! k) \/ Some k ∈ Outcome.marker_ref <$> values.
Proof.
  induction values as [|dataType values IH] using rev_ind.
  - cbn. split; [now left | intros [H | H]; [exact H | inversion H]].
  - rewrite overrides_of_snoc, fmap_app, elem_of_app. cbn [fmap list_fmap].
    rewrite list_elem_of_singleton. unfold Outcome.marker_ref at 2.
    destruct (kIsDataTypeOverrideOf dataType) as [base|]; cbn [fmap option_fmap option_map].
    + rewrite lookup_insert. destruct (decide (ref base = k)) as [->|Hne].
      * split; [intros _; right; right; reflexivity | intros _; eauto].
      * rewrite IH. split; [tauto |].
        intros [H | [H | H]]; [tauto | tauto | congruence].
    + rewrite IH. split; [tauto |].
      intros [H | [H | H]]; [tauto | tauto | discriminate H].
Qed.

(** While the declarations are well formed the loop neither throws nor
    stops: it goes on with the map built so far. *)
Lemma collect_overrides_app pre rest acc :
  Outcome.well_declared pre ->
  (forall k, Some k ∈ Outcome.marker_ref <$> pre -> acc !! k = None) ->
  collect_overrides dialect (pre ++ rest) acc
  = collect_overrides dialect rest (Outcome.overrides_of pre acc).
Proof.
  revert acc. induction pre as [|dataType pre IH]; intros acc [Hall Hnd] Hfresh;
    [reflexivity |].
  apply Forall_cons in Hall as [[base Hbase] Hall].
  rewrite fmap_cons in Hnd. apply NoDup_cons in Hnd as [Hnotin Hnd].
  cbn [app collect_overrides]. rewrite Hbase.
  rewrite (Hfresh (ref base)).
  2:{ rewrite fmap_cons. apply elem_of_cons. left.
      unfold Outcome.marker_ref. now rewrite Hbase. }
  rewrite IH.
  - unfold Outcome.overrides_of. cbn [foldl]. now rewrite Hbase.
  - split; assumption.
  - intros k Hk. rewrite lookup_insert_ne.
    + apply Hfresh. rewrite fmap_cons. apply elem_of_cons. now right.
    + intros <-. apply Hnotin. unfold Outcome.marker_ref at 1.
      rewrite Hbase. exact Hk.
Qed.

(** Every entry of the map built comes from the start map or from a
    declared type carrying that key as marker. *)
Lemma overrides_of_lookup_inv values acc (k : positive) (dataType : DataTypeClass) :
  Outcome.overrides_of values acc !! k = Some dataType ->
  acc !! k = Some dataType
  \/ (dataType ∈ values
      /\ exists base, kIsDataTypeOverrideOf dataType = Some base /\ ref base = k).
Proof.
  induction values as [|x values IH] using rev_ind; [now left |].
  rewrite overrides_of_snoc.
  destruct (kIsDataTypeOverrideOf x) as [base|] eqn:Hx.
  - rewrite lookup_insert. destruct (decide (ref base = k)) as [<-|Hne].
    + intros [= <-]. right. split; [apply elem_of_app; right; now left | eauto].
    + intros H. destruct (IH H) as [? | [Hin Hb]]; [now left |].
      right. split; [apply elem_of_app; now left | exact Hb].
  - intros H. destruct (IH H) as [? | [Hin Hb]]; [now left |].
    right. split; [apply elem_of_app; now left | exact Hb].
Qed.

(** With pairwise distinct markers, each declared type sits under its
    marker. *)
Lemma overrides_of_lookup values acc (dataType : DataTypeClass) (base : Class) :
  NoDup (Outcome.marker_ref <$> values) ->
  dataType ∈ values ->
  kIsDataTypeOverrideOf dataType = Some base ->
  Outcome.overrides_of values acc !! ref base = Some dataType.
Proof.
  induction values as [|x values IH] using rev_ind; intros Hnd Hin Hbase;
    [inversion Hin |].
  rewrite fmap_app in Hnd. apply NoDup_app in Hnd as (Hnd & Hdisj & _).
  rewrite overrides_of_snoc.
  apply elem_of_app in Hin as [Hin | Hin].
  - assert (Hk : Some (ref base) ∈ Outcome.marker_ref <$> values).
    { apply list_elem_of_fmap. exists dataType. split; [| exact Hin].
      unfold Outcome.marker_ref. now rewrite Hbase. }
    destruct (kIsDataTypeOverrideOf x) as [base'|] eqn:Hx; [| now apply IH].
    rewrite lookup_insert_ne; [now apply IH |].
    intros Heq. apply (Hdisj _ Hk). cbn. apply list_elem_of_singleton.
    unfold Outcome.marker_ref. rewrite Hx. cbn. now rewrite Heq.
  - apply list_elem_of_singleton in Hin as ->.
    rewrite Hbase. apply lookup_insert_eq.
Qed.

End CollectOverrides.

Section FirstOffence.

Import AbstractDialect.

Implicit Types (values pre post : list DataTypeClass).

(** Either all declarations are well formed, or there is a first
    declared type that has no marker or repeats an earlier marker. *)
Lemma first_offence values :
  Outcome.well_declared values
  \/ exists pre dataType post,
       values = pre ++ dataType :: post
       /\ Outcome.well_declared pre
       /\ (kIsDataTypeOverrideOf dataType = None
           \/ exists base, kIsDataTypeOverrideOf dataType = Some base
                /\ Some (ref base) ∈ Outcome.marker_ref <$> pre).
Proof.
  induction values as [|x values IH] using rev_ind.
  - left. split; [constructor | cbn; constructor].
  - destruct IH as [[Hall Hnd] | (pre & dataType & post & -> & Hpre & Hoff)].
    + destruct (kIsDataTypeOverrideOf x) as [base|] eqn:Hx.
      * destruct (decide (Some (ref base) ∈ Outcome.marker_ref <$> values)) as [Hin | Hnotin].
        -- right. exists values, x, []. split; [reflexivity |].
           split; [split; assumption |]. right. eauto.
        -- left. split.
           ++ apply Forall_app. split; [exact Hall |].
              constructor; [rewrite Hx; eauto | constructor].
           ++ rewrite fmap_app. apply NoDup_app. split; [exact Hnd |]. split.
              ** intros k Hk Hk'. cbn in Hk'. apply list_elem_of_singleton in Hk'.
                 subst k. apply Hnotin. unfold Outcome.marker_ref in Hk at 1.
                 rewrite Hx in Hk. exact Hk.
              ** cbn. apply NoDup_singleton.
      * right. exists values, x, []. split; [reflexivity |].
        split; [split; assumption | now left].
    + right. exists pre, dataType, (post ++ [x]).
      split; [now rewrite <- app_assoc |]. split; assumption.
Qed.

Lemma unmarked_not_well_declared values :
  Outcome.some_unmarked values -> ~ Outcome.well_declared values.
Proof.
  intros (dataType & Hin & Hnone) [Hall _].
  rewrite Forall_forall in Hall. destruct (Hall _ Hin) as [base Hbase]. congruence.
Qed.

Lemma shared_marker_not_well_declared values :
  Outcome.some_shared_marker values -> ~ Outcome.well_declared values.
Proof.
  intros (i & j & first & second & base & base' & Hne & Hi & Hj & Hb & Hb' & Href) [_ Hnd].
  apply Hne. rewrite NoDup_alt in Hnd. apply (Hnd i j (Some (ref base))).
  - rewrite list_lookup_fmap, Hi. cbn. unfold Outcome.marker_ref. now rewrite Hb.
  - rewrite list_lookup_fmap, Hj. cbn. unfold Outcome.marker_ref. rewrite Hb'. cbn.
    now rewrite Href.
Qed.

(** Declarations are ill formed exactly when some type is unmarked or two
    types share a marker. *)
Lemma not_well_declared_iff values :
  ~ Outcome.well_declared values
  <-> Outcome.some_unmarked values \/ Outcome.some_shared_marker values.
Proof.
  split.
  - intros Hnot.
    destruct (first_offence values)
      as [Hwd | (pre & dataType & post & -> & Hpre & [Hnone | (base & Hbase & Hin)])];
      [contradiction | |].
    + left. exists dataType. split; [| exact Hnone].
      apply elem_of_app. right. now left.
    + right. apply list_elem_of_fmap in Hin as (earlier & Heq & Hin).
      apply list_elem_of_lookup in Hin as (i & Hi).
      unfold Outcome.marker_ref in Heq.
      destruct (kIsDataTypeOverrideOf earlier) as [base'|] eqn:He; [| discriminate Heq].
      cbn in Heq. injection Heq as Heq.
      exists i, (length pre), earlier, dataType, base', base.
      pose proof (lookup_lt_Some _ _ _ Hi) as Hlt.
      split; [lia |]. split; [rewrite lookup_app_l; [exact Hi | exact Hlt] |].
      split; [now apply list_lookup_middle |].
      split; [exact He |]. split; [exact Hbase | now symmetry].
  - intros [H | H]; [now apply unmarked_not_well_declared
                    | now apply shared_marker_not_well_declared].
Qed.

End FirstOffence.

Section Getter.

Import AbstractDialect.

Lemma getter_fresh (this : t) :
  dataTypeOverridesCache this = None ->
  dataTypeOverrides this
  = match collect_overrides (dialect_name this) (Object_values (DataTypes this)) ∅ with
    | Throw e => (Throw e, this)
    | Return overrides => (Return overrides, set_cache this (Some overrides))
    end.
Proof. intros H. unfold dataTypeOverrides. now rewrite H. Qed.

Lemma collect_at_offence (dialect : string) (pre post : list DataTypeClass)
    (dataType : DataTypeClass) :
  Outcome.well_declared pre ->
  collect_overrides dialect (pre ++ dataType :: post) ∅
  = match kIsDataTypeOverrideOf dataType with
    | None => Throw (Error (missing_marker_message dialect (name (class dataType))))
    | Some base =>
        if decide (Some (ref base) ∈ Outcome.marker_ref <$> pre)
        then Throw (Error (duplicate_override_message dialect (name base)))
        else collect_overrides dialect post
               (<[ref base := dataType]> (Outcome.overrides_of pre ∅))
    end.
Proof.
  intros Hpre. rewrite collect_overrides_app; [| exact Hpre | intros; apply lookup_empty].
  cbn [collect_overrides].
  destruct (kIsDataTypeOverrideOf dataType) as [base|]; [| reflexivity].
  pose proof (overrides_of_is_Some pre ∅ (ref base)) as Hkeys.
  destruct (decide (Some (ref base) ∈ Outcome.marker_ref <$> pre)) as [Hin | Hnotin].
  - destruct (proj2 Hkeys (or_intror Hin)) as [x ->]. reflexivity.
  - destruct (Outcome.overrides_of pre ∅ !! ref base) eqn:E; [| reflexivity].
    destruct (proj1 Hkeys (ex_intro _ _ eq_refl)) as [[y Hy] | Hin]; [| contradiction].
    rewrite lookup_empty in Hy. discriminate Hy.
Qed.

Lemma collect_well_declared (dialect : string) (values : list DataTypeClass) :
  Outcome.well_declared values ->
  collect_overrides dialect values ∅ = Return (Outcome.overrides_of values ∅).
Proof.
  intros Hwd. rewrite <- (app_nil_r values) at 1.
  rewrite collect_overrides_app; [reflexivity | exact Hwd | intros; apply lookup_empty].
Qed.

End Getter.

(** The scan of a fresh instance.  On an instance whose cache is empty the
    getter goes through the values of [DataTypes] in the order
    [Object.values] lists them and stops at the first one that has no
    marker (error naming the dialect and that type) or whose marker an
    earlier value already carries (error naming the dialect and that base
    type), leaving the cache empty.  It throws exactly when some declared
    type is unmarked or two share a marker.  Otherwise it returns, and
    caches, the map that sends the marker of each declared type to that
    type and holds nothing else. *)
Theorem dataTypeOverrides_resolution (this : AbstractDialect.t) :
  AbstractDialect.dataTypeOverridesCache this = None ->
  let values := AbstractDialect.Object_values (AbstractDialect.DataTypes this) in
  (forall pre dataType post,
      values = pre ++ dataType :: post -> Outcome.well_declared pre ->
      AbstractDialect.kIsDataTypeOverrideOf dataType = None ->
      AbstractDialect.dataTypeOverrides this
      = (Throw (Error (AbstractDialect.missing_marker_message
                         (AbstractDialect.dialect_name this)
                         (AbstractDialect.name (AbstractDialect.class dataType)))),
         this))
  /\ (forall pre dataType post base,
        values = pre ++ dataType :: post -> Outcome.well_declared pre ->
        AbstractDialect.kIsDataTypeOverrideOf dataType = Some base ->
        Some (AbstractDialect.ref base) ∈ Outcome.marker_ref <$> pre ->
        AbstractDialect.dataTypeOverrides this
        = (Throw (Error (AbstractDialect.duplicate_override_message
                           (AbstractDialect.dialect_name this)
                           (AbstractDialect.name base))),
           this))
  /\ (is_Throw (fst (AbstractDialect.dataTypeOverrides this)) = true
      <-> Outcome.some_unmarked values \/ Outcome.some_shared_marker values)
  /\ (~ Outcome.some_unmarked values -> ~ Outcome.some_shared_marker values ->
      exists overrides : gmap positive AbstractDialect.DataTypeClass,
        AbstractDialect.dataTypeOverrides this
        = (Return overrides, AbstractDialect.set_cache this (Some overrides))
        /\ (forall dataType base,
              dataType ∈ values ->
              AbstractDialect.kIsDataTypeOverrideOf dataType = Some base ->
              overrides !! AbstractDialect.ref base = Some dataType)
        /\ (forall k dataType,
              overrides !! k = Some dataType ->
              dataType ∈ values
              /\ exists base,
                   AbstractDialect.kIsDataTypeOverrideOf dataType = Some base
                   /\ AbstractDialect.ref base = k)).
Proof.
  intros Hfresh values.
  assert (Hok : Outcome.well_declared values ->
                AbstractDialect.dataTypeOverrides this
                = (Return (Outcome.overrides_of values ∅),
                   AbstractDialect.set_cache this (Some (Outcome.overrides_of values ∅)))).
  { intros Hwd. rewrite (getter_fresh this Hfresh). fold values.
    now rewrite (collect_well_declared _ _ Hwd). }
  assert (Hmiss : forall pre dataType post,
      values = pre ++ dataType :: post -> Outcome.well_declared pre ->
      AbstractDialect.kIsDataTypeOverrideOf dataType = None ->
      AbstractDialect.dataTypeOverrides this
      = (Throw (Error (AbstractDialect.missing_marker_message
                         (AbstractDialect.dialect_name this)
                         (AbstractDialect.name (AbstractDialect.class dataType)))),
         this)).
  { intros pre dataType post Heq Hpre Hnone.
    rewrite (getter_fresh this Hfresh). fold values.
    rewrite Heq, (collect_at_offence _ _ _ _ Hpre), Hnone. reflexivity. }
  assert (Hdup : forall pre dataType post base,
      values = pre ++ dataType :: post -> Outcome.well_declared pre ->
      AbstractDialect.kIsDataTypeOverrideOf dataType = Some base ->
      Some (AbstractDialect.ref base) ∈ Outcome.marker_ref <$> pre ->
      AbstractDialect.dataTypeOverrides this
      = (Throw (Error (AbstractDialect.duplicate_override_message
                         (AbstractDialect.dialect_name this)
                         (AbstractDialect.name base))),
         this)).
  { intros pre dataType post base Heq Hpre Hbase Hin.
    rewrite (getter_fresh this Hfresh). fold values.
    rewrite Heq, (collect_at_offence _ _ _ _ Hpre), Hbase.
    destruct (decide _) as [_ | Hn]; [reflexivity | contradiction]. }
  split; [exact Hmiss | split; [exact Hdup | split]].
  - rewrite <- not_well_declared_iff. split.
    + intros Hthrow Hwd. rewrite (Hok Hwd) in Hthrow. discriminate Hthrow.
    + intros Hnot.
      destruct (first_offence values)
        as [Hwd | (pre & dataType & post & Heq & Hpre & [Hnone | (base & Hbase & Hin)])];
        [contradiction | |].
      * now rewrite (Hmiss _ _ _ Heq Hpre Hnone).
      * now rewrite (Hdup _ _ _ _ Heq Hpre Hbase Hin).
  - intros Hnu Hns.
    assert (Hwd : Outcome.well_declared values).
    { destruct (first_offence values)
        as [Hwd | (pre & dataType & post & Heq & Hpre & Hoff)]; [exact Hwd |].
      exfalso.
      assert (Hnot : ~ Outcome.well_declared values).
      { intros Hwd. pose proof (Hok Hwd) as Hret.
        destruct Hoff as [Hnone | (base & Hbase & Hin)].
        - rewrite (Hmiss _ _ _ Heq Hpre Hnone) in Hret. discriminate Hret.
        - rewrite (Hdup _ _ _ _ Heq Hpre Hbase Hin) in Hret. discriminate Hret. }
      apply not_well_declared_iff in Hnot. tauto. }
    exists (Outcome.overrides_of values ∅). split; [exact (Hok Hwd) | split].
    + intros dataType base Hin Hbase.
      apply overrides_of_lookup; [exact (proj2 Hwd) | exact Hin | exact Hbase].
    + intros k dataType Hk.
      destruct (overrides_of_lookup_inv _ _ _ _ Hk) as [He | Hr]; [| exact Hr].
      rewrite lookup_empty in He. discriminate He.
Qed.

Lemma dataTypeOverrides_resolution_witness :
  AbstractDialect.dataTypeOverridesCache Examples.clashing_dialect = None
  /\ Outcome.well_declared [Examples.MyBOOLEAN]
  /\ AbstractDialect.dataTypeOverrides Examples.clashing_dialect
     = (Throw (Error "Dialect mysql declares more than one implementation for DataType BOOLEAN."),
        Examples.clashing_dialect).
Proof.
  assert (Hwd : Outcome.well_declared [Examples.MyBOOLEAN]).
  { split.
    - constructor; [exists Examples.BaseBOOLEAN; reflexivity | constructor].
    - cbn. apply NoDup_singleton. }
  split; [reflexivity | split; [exact Hwd |]].
  apply (proj1 (proj2 (dataTypeOverrides_resolution Examples.clashing_dialect eq_refl))
           [Examples.MyBOOLEAN] Examples.MyTINYINT [Examples.MyPOINT] Examples.BaseBOOLEAN).
  - reflexivity.
  - exact Hwd.
  - reflexivity.
  - cbn. apply elem_of_cons. now left.
Defined.

(** C2. Once a read of [dataTypeOverrides] has returned a map, that map is
    in the cache of the instance, whose other fields are unchanged; every
    later read, however many, returns that same map and leaves the
    instance as it is; and a read on any instance holding that map in its
    cache returns it whatever its declared types are, so nothing is
    computed again. *)
Theorem dataTypeOverrides_memoized (this this' : AbstractDialect.t)
    (overrides : gmap positive AbstractDialect.DataTypeClass) :
  AbstractDialect.dataTypeOverrides this = (Return overrides, this') ->
  AbstractDialect.dataTypeOverridesCache this' = Some overrides
  /\ AbstractDialect.dialect_name this' = AbstractDialect.dialect_name this
  /\ AbstractDialect.DataTypes this' = AbstractDialect.DataTypes this
  /\ (forall n : nat,
        AbstractDialect.read_repeatedly n this' = (replicate n (Return overrides), this'))
  /\ (forall other : AbstractDialect.t,
        AbstractDialect.dataTypeOverridesCache other = Some overrides ->
        AbstractDialect.dataTypeOverrides other = (Return overrides, other)).
Proof.
  intros Hread.
  assert (Hcached : forall other : AbstractDialect.t,
             AbstractDialect.dataTypeOverridesCache other = Some overrides ->
             AbstractDialect.dataTypeOverrides other = (Return overrides, other)).
  { intros other Hc. unfold AbstractDialect.dataTypeOverrides. now rewrite Hc. }
  assert (Hstate : AbstractDialect.dataTypeOverridesCache this' = Some overrides
                   /\ AbstractDialect.dialect_name this' = AbstractDialect.dialect_name this
                   /\ AbstractDialect.DataTypes this' = AbstractDialect.DataTypes this).
  { unfold AbstractDialect.dataTypeOverrides in Hread.
    destruct (AbstractDialect.dataTypeOverridesCache this) as [cached|] eqn:Hc.
    - injection Hread as <- <-. auto.
    - destruct (AbstractDialect.collect_overrides _ _ _) as [m|e];
        [| discriminate Hread].
      injection Hread as <- <-. cbn. auto. }
  destruct Hstate as (Hc & Hn & Hd).
  repeat (split; [assumption |]).
  split; [| exact Hcached].
  induction n as [|n IH]; [reflexivity |].
  cbn [AbstractDialect.read_repeatedly replicate].
  rewrite (Hcached this' Hc), IH. reflexivity.
Qed.

Lemma dataTypeOverrides_memoized_witness :
  AbstractDialect.dataTypeOverrides Examples.sound_dialect
  = (Return (Outcome.overrides_of [Examples.MyBOOLEAN; Examples.MyUUID] ∅),
     AbstractDialect.set_cache Examples.sound_dialect
       (Some (Outcome.overrides_of [Examples.MyBOOLEAN; Examples.MyUUID] ∅)))
  /\ AbstractDialect.read_repeatedly 3
       (AbstractDialect.set_cache Examples.sound_dialect
          (Some (Outcome.overrides_of [Examples.MyBOOLEAN; Examples.MyUUID] ∅)))
     = (replicate 3 (Return (Outcome.overrides_of [Examples.MyBOOLEAN; Examples.MyUUID] ∅)),
        AbstractDialect.set_cache Examples.sound_dialect
          (Some (Outcome.overrides_of [Examples.MyBOOLEAN; Examples.MyUUID] ∅))).
Proof.
  assert (Hread : AbstractDialect.dataTypeOverrides Examples.sound_dialect
    = (Return (Outcome.overrides_of [Examples.MyBOOLEAN; Examples.MyUUID] ∅),
       AbstractDialect.set_cache Examples.sound_dialect
         (Some (Outcome.overrides_of [Examples.MyBOOLEAN; Examples.MyUUID] ∅))))
    by (vm_compute; reflexivity).
  split; [exact Hread |].
  exact (proj1 (proj2 (proj2 (proj2 (dataTypeOverrides_memoized _ _ _ Hread)))) 3).
Defined.

(** * Further properties *)

(** ** String literals read back *)

Lemma append_assoc (a b c : string) : (a +:+ b) +:+ c = a +:+ (b +:+ c).
Proof.
  induction a as [|x a IH]; [reflexivity |].
  now rewrite !append_cons, IH.
Qed.

Lemma replace_quote_append (a b : string) :
  replace_char_global "'" "''" (a +:+ b)
  = replace_char_global "'" "''" a +:+ replace_char_global "'" "''" b.
Proof.
  induction a as [|c a IH]; [reflexivity |].
  rewrite append_cons. cbn [replace_char_global].
  destruct (Ascii.eqb c "'"); rewrite IH.
  - now rewrite append_assoc.
  - now rewrite append_cons.
Qed.

(** Scanning a doubled text up to its closing quote gives the text back,
    provided no quote follows the closing one. *)
Lemma scan_body_doubled (text rest : string) :
  Lexical.starts_with_quote rest = false ->
  Lexical.scan_body (replace_char_global "'" "''" text +:+ "'" +:+ rest)
  = Some (text, rest).
Proof.
  intros Hrest. induction text as [|c text IH].
  - change (Lexical.scan_body (String "'" rest) = Some (EmptyString, rest)).
    cbn [Lexical.scan_body]. rewrite Ascii.eqb_refl.
    destruct rest as [|c' rest']; [reflexivity |].
    cbn [Lexical.starts_with_quote] in Hrest. now rewrite Hrest.
  - cbn [replace_char_global]. destruct (Ascii.eqb c "'") eqn:E.
    + apply Ascii.eqb_eq in E. subst c.
      change (Lexical.scan_body
                (String "'" (String "'"
                   (replace_char_global "'" "''" text +:+ "'" +:+ rest)))
              = Some (String "'" text, rest)).
      cbn [Lexical.scan_body]. rewrite Ascii.eqb_refl, IH. reflexivity.
    + rewrite append_cons. cbn [Lexical.scan_body]. rewrite E, IH. reflexivity.
Qed.

Lemma scan_escapeString (value rest : string) :
  Lexical.starts_with_quote rest = false ->
  Lexical.scan_literal (AbstractDialect.escapeString value +:+ rest)
  = Some (value, rest).
Proof.
  intros Hrest. unfold AbstractDialect.escapeString.
  change (Lexical.scan_body
            ((replace_char_global "'" "''" value +:+ "'") +:+ rest)
          = Some (value, rest)).
  rewrite append_assoc. now apply scan_body_doubled.
Qed.

Lemma escapeString_inj (a b : string) :
  AbstractDialect.escapeString a = AbstractDialect.escapeString b -> a = b.
Proof.
  intros H.
  pose proof (scan_escapeString a "" eq_refl) as Ha.
  pose proof (scan_escapeString b "" eq_refl) as Hb.
  rewrite H, Hb in Ha. now injection Ha.
Qed.

(** X1. A literal produced by [escapeString] and followed by any text
    that does not start with a quote is read back, by the rule "two
    quotes are one quote, one quote closes the literal", as exactly the
    escaped string, leaving exactly the text that followed: no content of
    the string can close the literal early. *)
Theorem escapeString_read_back (value rest : string) :
  Lexical.starts_with_quote rest = false ->
  Lexical.scan_literal (AbstractDialect.escapeString value +:+ rest)
  = Some (value, rest).
Proof. apply scan_escapeString. Qed.

Lemma escapeString_read_back_witness :
  Lexical.starts_with_quote "; DROP TABLE users" = false
  /\ Lexical.scan_literal
       (AbstractDialect.escapeString "Bob'; drop table users --" +:+ "; DROP TABLE users")
     = Some ("Bob'; drop table users --", "; DROP TABLE users").
Proof.
  split; [reflexivity |].
  apply (escapeString_read_back "Bob'; drop table users --" "; DROP TABLE users").
  reflexivity.
Defined.

(** X2. [escapeString] is injective: two strings with the same literal
    are the same string. *)
Theorem escapeString_injective (a b : string) :
  AbstractDialect.escapeString a = AbstractDialect.escapeString b -> a = b.
Proof. apply escapeString_inj. Qed.

Lemma escapeString_injective_witness :
  AbstractDialect.escapeString "it's" = AbstractDialect.escapeString "it's"
  /\ "it's" = "it's".
Proof.
  split; [reflexivity |].
  apply (escapeString_injective "it's" "it's"). reflexivity.
Defined.

(** X3. Escaping a concatenation is concatenating the escaped bodies
    between one pair of quotes. *)
Theorem escapeString_append (a b : string) :
  exists body_a body_b : string,
    AbstractDialect.escapeString a = "'" +:+ body_a +:+ "'"
    /\ AbstractDialect.escapeString b = "'" +:+ body_b +:+ "'"
    /\ AbstractDialect.escapeString (a +:+ b) = "'" +:+ body_a +:+ body_b +:+ "'".
Proof.
  exists (replace_char_global "'" "''" a), (replace_char_global "'" "''" b).
  split; [reflexivity | split; [reflexivity |]].
  unfold AbstractDialect.escapeString.
  now rewrite replace_quote_append, append_assoc.
Qed.

(** ** Buffer literals read back *)

Lemma hex_alphabet_no_quote (c : ascii) :
  In c Outcome.hex_alphabet -> Ascii.eqb c "'" = false.
Proof.
  unfold Outcome.hex_alphabet. cbn [list_ascii_of_string In].
  intros H. repeat (destruct H as [<- | H]; [reflexivity |]). destruct H.
Qed.

Lemma toString_hex_no_quote (buffer : list byte) :
  replace_char_global "'" "''" (Buffer_toString_hex buffer) = Buffer_toString_hex buffer.
Proof.
  induction buffer as [|b r IH]; [reflexivity |].
  cbn [Buffer_toString_hex replace_char_global].
  destruct (hex_digits_in_alphabet b) as [Hh Hl].
  rewrite (hex_alphabet_no_quote _ Hh), (hex_alphabet_no_quote _ Hl), IH.
  reflexivity.
Qed.

Lemma toString_hex_app (a b : list byte) :
  Buffer_toString_hex (a ++ b) = Buffer_toString_hex a +:+ Buffer_toString_hex b.
Proof.
  induction a as [|x a IH]; [reflexivity |].
  cbn [app Buffer_toString_hex]. rewrite IH. now rewrite !append_cons.
Qed.

Lemma scan_escapeBuffer (buffer : list byte) (rest : string) :
  Lexical.starts_with_quote rest = false ->
  Lexical.scan_body (Buffer_toString_hex buffer +:+ "'" +:+ rest)
  = Some (Buffer_toString_hex buffer, rest).
Proof.
  intros Hrest. rewrite <- (toString_hex_no_quote buffer) at 1.
  now apply scan_body_doubled.
Qed.

Lemma escapeBuffer_shape (buffer : list byte) (rest : string) :
  AbstractDialect.escapeBuffer buffer +:+ rest
  = String "X" (String "'" (Buffer_toString_hex buffer +:+ "'" +:+ rest)).
Proof.
  unfold AbstractDialect.escapeBuffer.
  change (String "X" (String "'" ((Buffer_toString_hex buffer +:+ "'") +:+ rest))
          = String "X" (String "'" (Buffer_toString_hex buffer +:+ "'" +:+ rest))).
  now rewrite append_assoc.
Qed.

(** X4. [escapeBuffer] is injective: two buffers with the same literal
    hold the same bytes. *)
Theorem escapeBuffer_injective (a b : list byte) :
  AbstractDialect.escapeBuffer a = AbstractDialect.escapeBuffer b -> a = b.
Proof.
  intros H.
  assert (Hs : AbstractDialect.escapeBuffer a +:+ ""
               = AbstractDialect.escapeBuffer b +:+ "") by now rewrite H.
  rewrite !escapeBuffer_shape in Hs. injection Hs as Hs.
  pose proof (scan_escapeBuffer a "" eq_refl) as Ha.
  pose proof (scan_escapeBuffer b "" eq_refl) as Hb.
  rewrite Hs, Hb in Ha. injection Ha as Ha.
  pose proof (toString_hex_decodes a) as Da.
  rewrite <- Ha, toString_hex_decodes in Da. now injection Da.
Qed.

Lemma escapeBuffer_injective_witness :
  AbstractDialect.escapeBuffer [x00; xff]%byte = AbstractDialect.escapeBuffer [x00; xff]%byte
  /\ [x00; xff]%byte = [x00; xff]%byte.
Proof.
  split; [reflexivity |].
  apply (escapeBuffer_injective [x00; xff]%byte [x00; xff]%byte). reflexivity.
Defined.

(** X5. The literal of a buffer is three characters plus two per byte,
    and the literal of a concatenation holds the hexadecimal digits of the
    first buffer followed by those of the second. *)
Theorem escapeBuffer_append (a b : list byte) :
  String.length (AbstractDialect.escapeBuffer a) = 2 * length a + 3
  /\ exists hex_a hex_b : string,
       AbstractDialect.escapeBuffer a = "X'" +:+ hex_a +:+ "'"
       /\ AbstractDialect.escapeBuffer b = "X'" +:+ hex_b +:+ "'"
       /\ AbstractDialect.escapeBuffer (a ++ b) = "X'" +:+ hex_a +:+ hex_b +:+ "'".
Proof.
  split.
  - unfold AbstractDialect.escapeBuffer.
    rewrite !length_append, toString_hex_length. cbn [String.length]. lia.
  - exists (Buffer_toString_hex a), (Buffer_toString_hex b).
    split; [reflexivity | split; [reflexivity |]].
    unfold AbstractDialect.escapeBuffer. now rewrite toString_hex_app, append_assoc.
Qed.

(** X6. A literal produced by [escapeBuffer], followed by any text that
    does not start with a quote, is the letter X and a quoted literal whose
    body, read up to its closing quote, is hexadecimal text that decodes
    to the buffer, leaving exactly the text that followed. *)
Theorem escapeBuffer_read_back (buffer : list byte) (rest : string) :
  Lexical.starts_with_quote rest = false ->
  exists literal hex : string,
    AbstractDialect.escapeBuffer buffer +:+ rest = String "X" literal
    /\ Lexical.scan_literal literal = Some (hex, rest)
    /\ Outcome.decode_hex hex = Some buffer.
Proof.
  intros Hrest.
  exists (String "'" (Buffer_toString_hex buffer +:+ "'" +:+ rest)),
         (Buffer_toString_hex buffer).
  split; [apply escapeBuffer_shape |].
  split; [| apply toString_hex_decodes].
  cbn [Lexical.scan_literal]. rewrite Ascii.eqb_refl.
  now apply scan_escapeBuffer.
Qed.

Lemma escapeBuffer_read_back_witness :
  Lexical.starts_with_quote ", 1)" = false
  /\ exists literal hex : string,
       AbstractDialect.escapeBuffer [xde; xad]%byte +:+ ", 1)" = String "X" literal
       /\ Lexical.scan_literal literal = Some (hex, ", 1)")
       /\ Outcome.decode_hex hex = Some [xde; xad]%byte.
Proof.
  split; [reflexivity |].
  apply (escapeBuffer_read_back [xde; xad]%byte ", 1)"). reflexivity.
Defined.

(** ** ENUM definitions read back *)

Lemma concat_cons2 (sep x y : string) (r : list string) :
  String.concat sep (x :: y :: r) = x +:+ sep +:+ String.concat sep (y :: r).
Proof. reflexivity. Qed.

Lemma scan_members_join (l : list string) :
  forall (x : string) (fuel : nat),
    length (x :: l) <= fuel ->
    Lexical.scan_members fuel
      (String.concat ", " (map AbstractDialect.escapeString (x :: l)) +:+ ")")
    = Some (x :: l).
Proof.
  induction l as [|y l IH]; intros x fuel Hfuel;
    (destruct fuel as [|fuel]; [cbn in Hfuel; lia |]).
  - cbn [map String.concat Lexical.scan_members].
    rewrite (scan_escapeString x ")" eq_refl). reflexivity.
  - cbn [map]. rewrite concat_cons2, append_assoc.
    cbn [Lexical.scan_members].
    rewrite (scan_escapeString x
               ((", " +:+ String.concat ", "
                            (AbstractDialect.escapeString y
                             :: map AbstractDialect.escapeString l)) +:+ ")")
               eq_refl).
    change ((", " +:+ String.concat ", "
                     (AbstractDialect.escapeString y
                      :: map AbstractDialect.escapeString l)) +:+ ")")
      with (String "," (String " "
              (String.concat ", " (map AbstractDialect.escapeString (y :: l)) +:+ ")"))).
    cbn [Ascii.eqb Bool.eqb andb]. rewrite IH; [reflexivity |].
    cbn [length] in *. lia.
Qed.

Lemma members_not_longer (l : list string) :
  length l <= String.length (String.concat ", " (map AbstractDialect.escapeString l)).
Proof.
  induction l as [|x l IH]; [cbn; lia |].
  destruct l as [|y l].
  - cbn [map String.concat length]. unfold AbstractDialect.escapeString.
    rewrite !length_append. cbn [String.length]. lia.
  - change (map AbstractDialect.escapeString (x :: y :: l))
      with (AbstractDialect.escapeString x :: map AbstractDialect.escapeString (y :: l)).
    change (map AbstractDialect.escapeString (y :: l))
      with (AbstractDialect.escapeString y :: map AbstractDialect.escapeString l) in *.
    rewrite concat_cons2, !length_append. cbn [length String.length] in *. lia.
Qed.

Lemma substring_all (s : string) : String.substring 0 (String.length s) s = s.
Proof. induction s as [|c s IH]; [reflexivity | cbn; now rewrite IH]. Qed.

Lemma read_enum_after_keyword (body : string) :
  Lexical.read_enum ("ENUM(" +:+ body)
  = if String.eqb body ")" then Some []
    else Lexical.scan_members (5 + String.length body) body.
Proof.
  assert (Hlen : String.length ("ENUM(" +:+ body) - 5 = String.length body)
    by (rewrite length_append; cbn [String.length]; lia).
  unfold Lexical.read_enum. rewrite Hlen, length_append.
  change (String.prefix "ENUM(" ("ENUM(" +:+ body)) with (String.prefix "" body).
  replace (String.prefix "" body) with true by (now destruct body).
  change (String.substring 5 (String.length body) ("ENUM(" +:+ body))
    with (String.substring 0 (String.length body) body).
  rewrite substring_all. reflexivity.
Qed.

Lemma read_enum_toSql (members : list string) :
  Lexical.read_enum
    (MySql.ENUM.toSql (MySql.ENUM.mkENUM members)
       (MySql.ENUM.mkToSqlOptions AbstractDialect.inherited))
  = Some members.
Proof.
  assert (Hsql : MySql.ENUM.toSql (MySql.ENUM.mkENUM members)
                   (MySql.ENUM.mkToSqlOptions AbstractDialect.inherited)
                 = "ENUM(" +:+ (String.concat ", "
                                  (map AbstractDialect.escapeString members) +:+ ")")).
  { unfold MySql.ENUM.toSql. now rewrite Array_join_concat. }
  rewrite Hsql, read_enum_after_keyword.
  destruct members as [|x l]; [reflexivity |].
  assert (Hne : String.eqb
                  (String.concat ", " (map AbstractDialect.escapeString (x :: l)) +:+ ")")
                  ")" = false).
  { destruct l as [|y l]; reflexivity. }
  rewrite Hne. apply scan_members_join.
  pose proof (members_not_longer (x :: l)) as Hlen.
  rewrite length_append. lia.
Qed.

(** X7. Under the inherited [escapeString], the definition rendered by
    [ENUM.toSql] reads back, literal by literal, as exactly the declared
    members in their order; hence two ENUM types with the same definition
    have the same members. *)
Theorem ENUM_toSql_read_back (this other : MySql.ENUM.t) :
  let options := MySql.ENUM.mkToSqlOptions AbstractDialect.inherited in
  Lexical.read_enum (MySql.ENUM.toSql this options) = Some (MySql.ENUM.values this)
  /\ (MySql.ENUM.toSql this options = MySql.ENUM.toSql other options ->
      MySql.ENUM.values this = MySql.ENUM.values other).
Proof.
  intros options.
  assert (Hread : forall e : MySql.ENUM.t,
             Lexical.read_enum (MySql.ENUM.toSql e options) = Some (MySql.ENUM.values e)).
  { intros [members]. apply read_enum_toSql. }
  split; [apply Hread |].
  intros Heq. pose proof (Hread this) as Ht. rewrite Heq, Hread in Ht.
  now injection Ht.
Qed.

Lemma ENUM_toSql_read_back_witness :
  MySql.ENUM.toSql (MySql.ENUM.mkENUM ["a, b"; "c'); --"])
    (MySql.ENUM.mkToSqlOptions AbstractDialect.inherited)
  = MySql.ENUM.toSql (MySql.ENUM.mkENUM ["a, b"; "c'); --"])
      (MySql.ENUM.mkToSqlOptions AbstractDialect.inherited)
  /\ Lexical.read_enum
       (MySql.ENUM.toSql (MySql.ENUM.mkENUM ["a, b"; "c'); --"])
          (MySql.ENUM.mkToSqlOptions AbstractDialect.inherited))
     = Some ["a, b"; "c'); --"].
Proof.
  split; [reflexivity |].
  exact (proj1 (ENUM_toSql_read_back (MySql.ENUM.mkENUM ["a, b"; "c'); --"])
                  (MySql.ENUM.mkENUM ["a, b"; "c'); --"]))).
Defined.

(** ** The override registry over the life of an instance *)

Section RegistryLife.

Import AbstractDialect.

Implicit Types (values : list DataTypeClass) (this : t).

(** What a run of the loop from the empty map returns tells whether the
    declarations are well formed. *)
Lemma collect_outcome (dialect : string) values :
  match collect_overrides dialect values ∅ with
  | Return overrides =>
      Outcome.well_declared values /\ overrides = Outcome.overrides_of values ∅
  | Throw _ => ~ Outcome.well_declared values
  end.
Proof.
  destruct (first_offence values)
    as [Hwd | (pre & dataType & post & -> & Hpre & Hoff)].
  - rewrite (collect_well_declared dialect values Hwd). now split.
  - assert (Hnot : ~ Outcome.well_declared (pre ++ dataType :: post)).
    { apply not_well_declared_iff.
      destruct Hoff as [Hnone | (base & Hbase & Hin)].
      - left. exists dataType. split; [| exact Hnone].
        apply elem_of_app. right. apply elem_of_cons. now left.
      - right. apply list_elem_of_fmap in Hin as (earlier & Heq & Hin).
        apply list_elem_of_lookup in Hin as (i & Hi).
        unfold Outcome.marker_ref in Heq.
        destruct (kIsDataTypeOverrideOf earlier) as [base'|] eqn:He;
          [| discriminate Heq].
        cbn in Heq. injection Heq as Heq.
        exists i, (length pre), earlier, dataType, base', base.
        pose proof (lookup_lt_Some _ _ _ Hi) as Hlt.
        split; [lia |]. split; [rewrite lookup_app_l; [exact Hi | exact Hlt] |].
        split; [now apply list_lookup_middle |].
        split; [exact He |]. split; [exact Hbase | now symmetry]. }
    rewrite (collect_at_offence dialect pre post dataType Hpre).
    destruct Hoff as [-> | (base & -> & Hin)]; [exact Hnot |].
    destruct (decide _) as [_ | Hn]; [exact Hnot | contradiction].
Qed.

Lemma read_fresh_outcome this :
  dataTypeOverridesCache this = None ->
  match fst (dataTypeOverrides this) with
  | Return overrides =>
      Outcome.well_declared (Object_values (DataTypes this))
      /\ overrides = Outcome.overrides_of (Object_values (DataTypes this)) ∅
      /\ snd (dataTypeOverrides this) = set_cache this (Some overrides)
  | Throw _ =>
      ~ Outcome.well_declared (Object_values (DataTypes this))
      /\ snd (dataTypeOverrides this) = this
  end.
Proof.
  intros Hfresh. rewrite (getter_fresh this Hfresh).
  pose proof (collect_outcome (dialect_name this) (Object_values (DataTypes this))) as H.
  destruct (collect_overrides _ _ _) as [m|e]; cbn [fst snd].
  - destruct H as [Hwd ->]. auto.
  - auto.
Qed.

Lemma overrides_of_size values (acc : Overrides) :
  Outcome.well_declared values ->
  (forall k, Some k ∈ Outcome.marker_ref <$> values -> acc !! k = None) ->
  size (Outcome.overrides_of values acc) = size acc + length values.
Proof.
  induction values as [|x values IH] using rev_ind; intros [Hall Hnd] Hfresh.
  - cbn. lia.
  - apply Forall_app in Hall as [Hall Hx].
    apply Forall_cons in Hx as [[base Hbase] _].
    rewrite fmap_app in Hnd. apply NoDup_app in Hnd as (Hnd & Hdisj & _).
    rewrite overrides_of_snoc, Hbase, length_app. cbn [length].
    assert (Hkey : Some (ref base) ∈ Outcome.marker_ref <$> [x]).
    { cbn. apply list_elem_of_singleton. unfold Outcome.marker_ref. now rewrite Hbase. }
    rewrite map_size_insert_None.
    + rewrite IH; [lia | now split |].
      intros k Hk. apply Hfresh. rewrite fmap_app. apply elem_of_app. now left.
    + apply eq_None_not_Some. intros Hsome.
      apply overrides_of_is_Some in Hsome as [Hacc | Hin].
      * rewrite Hfresh in Hacc; [destruct Hacc as [? Hacc]; discriminate Hacc |].
        rewrite fmap_app. apply elem_of_app. now right.
      * exact (Hdisj _ Hin Hkey).
Qed.

Lemma overrides_of_lookup_iff values (k : positive) (dataType : DataTypeClass) :
  Outcome.well_declared values ->
  Outcome.overrides_of values ∅ !! k = Some dataType
  <-> dataType ∈ values /\ Outcome.marker_ref dataType = Some k.
Proof.
  intros [Hall Hnd]. split.
  - intros H. destruct (overrides_of_lookup_inv _ _ _ _ H) as [He | [Hin (base & Hb & <-)]].
    + rewrite lookup_empty in He. discriminate He.
    + split; [exact Hin |]. unfold Outcome.marker_ref. now rewrite Hb.
  - intros [Hin Hk]. unfold Outcome.marker_ref in Hk.
    destruct (kIsDataTypeOverrideOf dataType) as [base|] eqn:Hb; [| discriminate Hk].
    cbn in Hk. injection Hk as <-. now apply overrides_of_lookup.
Qed.

Lemma well_declared_Permutation values values' :
  values ≡ₚ values' -> Outcome.well_declared values -> Outcome.well_declared values'.
Proof.
  intros Hp [Hall Hnd]. split.
  - now rewrite <- Hp.
  - now rewrite <- Hp.
Qed.

Lemma overrides_of_Permutation values values' :
  values ≡ₚ values' -> Outcome.well_declared values ->
  Outcome.overrides_of values ∅ = Outcome.overrides_of values' ∅.
Proof.
  intros Hp Hwd.
  pose proof (well_declared_Permutation _ _ Hp Hwd) as Hwd'.
  apply map_eq. intros k.
  destruct (Outcome.overrides_of values ∅ !! k) as [dataType|] eqn:E.
  - symmetry. apply (overrides_of_lookup_iff _ _ _ Hwd').
    apply (overrides_of_lookup_iff _ _ _ Hwd) in E as [Hin Hk].
    split; [now rewrite <- Hp | exact Hk].
  - destruct (Outcome.overrides_of values' ∅ !! k) as [dataType|] eqn:E'; [| reflexivity].
    apply (overrides_of_lookup_iff _ _ _ Hwd') in E' as [Hin Hk].
    assert (H : Outcome.overrides_of values ∅ !! k = Some dataType).
    { apply (overrides_of_lookup_iff _ _ _ Hwd). split; [now rewrite Hp | exact Hk]. }
    rewrite E in H. discriminate H.
Qed.

End RegistryLife.

(** X8. A failed resolution is not cached: on an instance with an empty
    cache whose read throws, the instance is left as it was and every
    further read throws the same error again. *)
Theorem dataTypeOverrides_failure_repeats (this : AbstractDialect.t) (e : Exception) :
  AbstractDialect.dataTypeOverridesCache this = None ->
  fst (AbstractDialect.dataTypeOverrides this) = Throw e ->
  forall n : nat,
    AbstractDialect.read_repeatedly n this = (replicate n (Throw e), this).
Proof.
  intros Hfresh Hthrow.
  assert (Hread : AbstractDialect.dataTypeOverrides this = (Throw e, this)).
  { pose proof (read_fresh_outcome this Hfresh) as H. rewrite Hthrow in H.
    destruct H as [_ Hsnd].
    destruct (AbstractDialect.dataTypeOverrides this) as [r this'].
    cbn [fst snd] in *. now subst. }
  induction n as [|n IH]; [reflexivity |].
  cbn [AbstractDialect.read_repeatedly replicate]. now rewrite Hread, IH.
Qed.

Lemma dataTypeOverrides_failure_repeats_witness :
  AbstractDialect.dataTypeOverridesCache Examples.clashing_dialect = None
  /\ AbstractDialect.read_repeatedly 2 Examples.clashing_dialect
     = (replicate 2
          (Throw (Error "Dialect mysql declares more than one implementation for DataType BOOLEAN.")),
        Examples.clashing_dialect).
Proof.
  split; [reflexivity |].
  apply (dataTypeOverrides_failure_repeats Examples.clashing_dialect
           (Error "Dialect mysql declares more than one implementation for DataType BOOLEAN."));
    reflexivity.
Defined.

(** X9. A successful resolution on an instance with an empty cache
    returns a map with exactly one entry per declared data type. *)
Theorem dataTypeOverrides_size (this : AbstractDialect.t)
    (overrides : gmap positive AbstractDialect.DataTypeClass) :
  AbstractDialect.dataTypeOverridesCache this = None ->
  fst (AbstractDialect.dataTypeOverrides this) = Return overrides ->
  size overrides = length (AbstractDialect.DataTypes this).
Proof.
  intros Hfresh Hret.
  pose proof (read_fresh_outcome this Hfresh) as H. rewrite Hret in H.
  destruct H as (Hwd & -> & _).
  rewrite (overrides_of_size _ ∅ Hwd) by (intros; apply lookup_empty).
  rewrite map_size_empty. unfold AbstractDialect.Object_values.
  rewrite length_map. lia.
Qed.

Lemma dataTypeOverrides_size_witness :
  AbstractDialect.dataTypeOverridesCache Examples.sound_dialect = None
  /\ fst (AbstractDialect.dataTypeOverrides Examples.sound_dialect)
     = Return (Outcome.overrides_of [Examples.MyBOOLEAN; Examples.MyUUID] ∅)
  /\ size (Outcome.overrides_of [Examples.MyBOOLEAN; Examples.MyUUID] ∅) = 2.
Proof.
  assert (Hret : fst (AbstractDialect.dataTypeOverrides Examples.sound_dialect)
                 = Return (Outcome.overrides_of [Examples.MyBOOLEAN; Examples.MyUUID] ∅))
    by (vm_compute; reflexivity).
  split; [reflexivity | split; [exact Hret |]].
  exact (dataTypeOverrides_size Examples.sound_dialect _ eq_refl Hret).
Defined.

(** X10. The order of the declarations does not matter to the outcome:
    two instances with empty caches whose declared types are the same up
    to order either both fail or both return the same map. *)
Theorem dataTypeOverrides_order_independent (this other : AbstractDialect.t) :
  AbstractDialect.dataTypeOverridesCache this = None ->
  AbstractDialect.dataTypeOverridesCache other = None ->
  AbstractDialect.Object_values (AbstractDialect.DataTypes this)
    ≡ₚ AbstractDialect.Object_values (AbstractDialect.DataTypes other) ->
  is_Throw (fst (AbstractDialect.dataTypeOverrides this))
  = is_Throw (fst (AbstractDialect.dataTypeOverrides other))
  /\ forall overrides : gmap positive AbstractDialect.DataTypeClass,
       fst (AbstractDialect.dataTypeOverrides this) = Return overrides ->
       fst (AbstractDialect.dataTypeOverrides other) = Return overrides.
Proof.
  intros Hthis Hother Hperm.
  pose proof (read_fresh_outcome this Hthis) as H1.
  pose proof (read_fresh_outcome other Hother) as H2.
  destruct (fst (AbstractDialect.dataTypeOverrides this)) as [m1|e1];
    destruct (fst (AbstractDialect.dataTypeOverrides other)) as [m2|e2]; cbn [is_Throw].
  - destruct H1 as (Hwd1 & -> & _). destruct H2 as (_ & -> & _).
    split; [reflexivity |]. intros overrides [= <-].
    f_equal. symmetry. now apply overrides_of_Permutation.
  - destruct H1 as (Hwd1 & _). destruct H2 as [Hnot _].
    exfalso. apply Hnot. exact (well_declared_Permutation _ _ Hperm Hwd1).
  - destruct H1 as [Hnot _]. destruct H2 as (Hwd2 & _).
    exfalso. apply Hnot. symmetry in Hperm.
    exact (well_declared_Permutation _ _ Hperm Hwd2).
  - split; [reflexivity |]. intros overrides Habs. discriminate Habs.
Qed.

Lemma dataTypeOverrides_order_independent_witness :
  AbstractDialect.dataTypeOverridesCache Examples.sound_dialect = None
  /\ AbstractDialect.dataTypeOverridesCache Examples.sound_dialect_reordered = None
  /\ AbstractDialect.Object_values (AbstractDialect.DataTypes Examples.sound_dialect)
       ≡ₚ AbstractDialect.Object_values
            (AbstractDialect.DataTypes Examples.sound_dialect_reordered)
  /\ fst (AbstractDialect.dataTypeOverrides Examples.sound_dialect_reordered)
     = Return (Outcome.overrides_of [Examples.MyBOOLEAN; Examples.MyUUID] ∅).
Proof.
  assert (Hperm :
    AbstractDialect.Object_values (AbstractDialect.DataTypes Examples.sound_dialect)
      ≡ₚ AbstractDialect.Object_values
           (AbstractDialect.DataTypes Examples.sound_dialect_reordered))
    by apply perm_swap.
  split; [reflexivity | split; [reflexivity | split; [exact Hperm |]]].
  apply (proj2 (dataTypeOverrides_order_independent Examples.sound_dialect
                  Examples.sound_dialect_reordered eq_refl eq_refl Hperm)).
  vm_compute. reflexivity.
Defined.

(** X11. Coherence of the cache is kept by reading: starting from an
    instance whose cache is empty or holds the map of its well-formed
    declarations, any number of reads leaves such an instance, with the
    same name and declarations; each read that returns gives exactly the
    map of the declarations, which are then well formed, and each read
    that throws happens on ill-formed declarations. *)
Theorem dataTypeOverrides_keeps_coherence (this : AbstractDialect.t) (n : nat) :
  Registry.coherent this ->
  let values := AbstractDialect.Object_values (AbstractDialect.DataTypes this) in
  let after := snd (AbstractDialect.read_repeatedly n this) in
  Registry.coherent after
  /\ AbstractDialect.dialect_name after = AbstractDialect.dialect_name this
  /\ AbstractDialect.DataTypes after = AbstractDialect.DataTypes this
  /\ Forall (fun result : Completion (gmap positive AbstractDialect.DataTypeClass) =>
               match result with
               | Return overrides =>
                   Outcome.well_declared values
                   /\ overrides = Outcome.overrides_of values ∅
               | Throw _ => ~ Outcome.well_declared values
               end)
            (fst (AbstractDialect.read_repeatedly n this)).
Proof.
  revert this. induction n as [|n IH]; intros this Hco values after.
  - subst after. cbn. repeat split; [exact Hco | constructor].
  - assert (Hstep :
      Registry.coherent (snd (AbstractDialect.dataTypeOverrides this))
      /\ AbstractDialect.dialect_name (snd (AbstractDialect.dataTypeOverrides this))
         = AbstractDialect.dialect_name this
      /\ AbstractDialect.DataTypes (snd (AbstractDialect.dataTypeOverrides this))
         = AbstractDialect.DataTypes this
      /\ match fst (AbstractDialect.dataTypeOverrides this) with
         | Return overrides =>
             Outcome.well_declared values /\ overrides = Outcome.overrides_of values ∅
         | Throw _ => ~ Outcome.well_declared values
         end).
    { destruct (AbstractDialect.dataTypeOverridesCache this) as [cached|] eqn:Hc.
      - unfold AbstractDialect.dataTypeOverrides. rewrite Hc. cbn [fst snd].
        pose proof Hco as Hco'. unfold Registry.coherent in Hco'. rewrite Hc in Hco'.
        destruct Hco' as [Hwd Heq].
        split; [exact Hco |]. split; [reflexivity |]. split; [reflexivity |].
        split; [exact Hwd | exact Heq].
      - pose proof (read_fresh_outcome this Hc) as H.
        destruct (fst (AbstractDialect.dataTypeOverrides this)) as [m|e].
        + destruct H as (Hwd & Heq & ->).
          split; [unfold Registry.coherent; cbn; split; [exact Hwd | exact Heq] |].
          split; [reflexivity |]. split; [reflexivity |].
          split; [exact Hwd | exact Heq].
        + destruct H as [Hnot ->].
          split; [exact Hco |]. split; [reflexivity |]. split; [reflexivity |].
          exact Hnot. }
    destruct Hstep as (Hco1 & Hn1 & Hd1 & Hres).
    specialize (IH _ Hco1). cbn zeta in IH.
    subst after. cbn [AbstractDialect.read_repeatedly].
    destruct (AbstractDialect.dataTypeOverrides this) as [r this1].
    cbn [fst snd] in *.
    destruct (AbstractDialect.read_repeatedly n this1) as [rs this2].
    cbn [fst snd] in *.
    destruct IH as (Hco2 & Hn2 & Hd2 & Hall).
    split; [exact Hco2 |]. split; [congruence |]. split; [congruence |].
    constructor; [exact Hres |]. subst values. rewrite Hd1 in Hall. exact Hall.
Qed.

Lemma dataTypeOverrides_keeps_coherence_witness :
  Registry.coherent Examples.sound_dialect
  /\ Registry.coherent (snd (AbstractDialect.read_repeatedly 3 Examples.sound_dialect)).
Proof.
  assert (Hco : Registry.coherent Examples.sound_dialect) by exact I.
  split; [exact Hco |].
  exact (proj1 (dataTypeOverrides_keeps_coherence Examples.sound_dialect 3 Hco)).
Defined.

(** ** MySQL GEOMETRY, further *)

(** X12. The column type of every GEOMETRY instance the constructor
    returns is GEOMETRY, POINT, LINESTRING or POLYGON: the subtype itself
    when a non-empty one was given, GEOMETRY when none was. *)
Theorem GEOMETRY_toSql_of_constructed (ty : option string) (srid : option Z)
    (this : MySql.GEOMETRY.t) :
  MySql.GEOMETRY.constructor ty srid = Return this ->
  In (MySql.GEOMETRY.toSql this) ("GEOMETRY" :: MySql.GEOMETRY.SUPPORTED_GEOMETRY_TYPES)
  /\ (forall s : string, ty = Some s -> s <> "" -> MySql.GEOMETRY.toSql this = s)
  /\ (ty = None \/ ty = Some "" -> MySql.GEOMETRY.toSql this = "GEOMETRY").
Proof.
  rewrite GEOMETRY_constructor_unfold.
  destruct ty as [[|c s]|]; cbn [MySql.GEOMETRY.type_given ToBoolean String.length
                                  Nat.eqb negb andb].
  - intros [= <-]. split; [left; reflexivity |]. split.
    + intros s [= <-] Hne. congruence.
    + reflexivity.
  - destruct (MySql.GEOMETRY.type_supported (Some (String c s))) eqn:Hs;
      cbn [negb]; intros H; [| discriminate H].
    injection H as <-.
    assert (Hsql : MySql.GEOMETRY.toSql (MySql.GEOMETRY.super (Some (String c s)) srid)
                   = String c s) by reflexivity.
    rewrite Hsql. split.
    + right. apply (proj1 (Array_includes_In _ _)). exact Hs.
    + split; [now intros s' [= <-] _ |]. intros [H | H]; discriminate H.
  - intros [= <-]. split; [left; reflexivity |]. split.
    + intros s H. discriminate H.
    + reflexivity.
Qed.

Lemma GEOMETRY_toSql_of_constructed_witness :
  MySql.GEOMETRY.constructor (Some "POLYGON") None
  = Return (MySql.GEOMETRY.mkGEOMETRY (MySql.GEOMETRY.mkOptions (Some "POLYGON") None))
  /\ MySql.GEOMETRY.toSql
       (MySql.GEOMETRY.mkGEOMETRY (MySql.GEOMETRY.mkOptions (Some "POLYGON") None))
     = "POLYGON".
Proof.
  split; [reflexivity |].
  apply (proj1 (proj2 (GEOMETRY_toSql_of_constructed (Some "POLYGON") None _ eq_refl))
           "POLYGON" eq_refl).
  discriminate.
Defined.

Section GeometrySanitizeMore.

Variables Geometry GeoJSON : Type.
Variable parse : Value -> Completion Geometry.
Variable toGeoJSON : Geometry -> MySql.GEOMETRY.ToGeoJSONOptions -> GeoJSON.

Let sanitize := MySql.GEOMETRY.sanitize Geometry GeoJSON parse toGeoJSON.
Let Plain := MySql.GEOMETRY.Plain GeoJSON.
Let GeoJson := MySql.GEOMETRY.GeoJson GeoJSON.
Let parsed_as_geojson := Outcome.parsed_as_geojson Geometry GeoJSON parse toGeoJSON.

Lemma sanitize_string_unfold (s : string) :
  sanitize (VString s)
  = match s with
    | EmptyString => Return (Plain VNull)
    | String _ _ => parsed_as_geojson (VString s)
    end.
Proof.
  destruct s as [|c s]; [reflexivity |].
  unfold sanitize, MySql.GEOMETRY.sanitize, parsed_as_geojson,
    Outcome.parsed_as_geojson, bind; simpl.
  destruct (parse _); reflexivity.
Qed.

(** X13. [GEOMETRY.sanitize] hands a non-empty string to the parser as it
    is, nothing stripped, and converts the parsed geometry with
    [shortCrs] set; errors of the parser come out unchanged. *)
Theorem GEOMETRY_sanitize_string (s : string) :
  s <> "" -> sanitize (VString s) = parsed_as_geojson (VString s).
Proof.
  intros Hne. rewrite sanitize_string_unfold.
  destruct s; [congruence | reflexivity].
Qed.

(** X14. Whatever its argument, [GEOMETRY.sanitize] behaves in one of four
    ways.  A plain value it returns is [null], for a falsy argument, or
    the empty buffer it was given.  A GeoJSON object it returns is the
    conversion of what the parser made of a non-empty string or of a
    non-empty buffer without its first four bytes.  An error it throws is
    the "Expected string or buffer" error or the parser's own. *)
Theorem GEOMETRY_sanitize_outcomes (v : Value) :
  (forall w : Value,
      sanitize v = Return (Plain w) ->
      (ToBoolean v = false /\ w = VNull) \/ (v = VBuffer [] /\ w = VBuffer []))
  /\ (forall g : GeoJSON,
        sanitize v = Return (GeoJson g) ->
        exists (input : Value) (geometry : Geometry),
          parse input = Return geometry
          /\ g = toGeoJSON geometry {| MySql.GEOMETRY.shortCrs := true |}
          /\ ((exists s, s <> "" /\ v = VString s /\ input = v)
              \/ (exists b, b <> [] /\ v = VBuffer b /\ input = VBuffer (drop 4 b))))
  /\ (forall e : Exception,
        sanitize v = Throw e ->
        e = Error "Invalid value for GEOMETRY type. Expected string or buffer."
        \/ exists input : Value, parse input = Throw e).
Proof.
  assert (Hparsed : forall input,
            parsed_as_geojson input
            = match parse input with
              | Throw e => Throw e
              | Return geometry =>
                  Return (GeoJson (toGeoJSON geometry {| MySql.GEOMETRY.shortCrs := true |}))
              end) by reflexivity.
  destruct v as [ | | [|] | x | z | s | r | b | r ].
  all: try (repeat split; intros ? H; cbv in H;
            first [ discriminate H
                  | injection H as <-; left; split; reflexivity
                  | injection H as <-; left; reflexivity ]).
  - (* numbers *)
    destruct x as [sg | sg | | sg m ex];
      repeat split; intros ? H; cbv in H;
      first [ discriminate H
            | injection H as <-; left; split; reflexivity
            | injection H as <-; left; reflexivity ].
  - (* big integers *)
    destruct z as [|p|p];
      repeat split; intros ? H; cbv in H;
      first [ discriminate H
            | injection H as <-; left; split; reflexivity
            | injection H as <-; left; reflexivity ].
  - (* strings *)
    fold sanitize. rewrite sanitize_string_unfold.
    destruct s as [|c s].
    + repeat split; intros ? H; try discriminate H.
      injection H as <-. left. split; reflexivity.
    + rewrite Hparsed. destruct (parse (VString (String c s))) as [geometry|e'] eqn:Hp;
        repeat split; intros ? H; try discriminate H.
      * injection H as <-. exists (VString (String c s)), geometry.
        split; [exact Hp |]. split; [reflexivity |].
        left. exists (String c s). split; [discriminate | split; reflexivity].
      * injection H as <-. right. exists (VString (String c s)). exact Hp.
  - (* buffers *)
    fold sanitize. unfold sanitize. rewrite sanitize_buffer_unfold.
    destruct b as [|x b].
    + repeat split; intros ? H; try discriminate H.
      injection H as <-. right. split; reflexivity.
    + fold parsed_as_geojson. rewrite Hparsed.
      destruct (parse (VBuffer (drop 4 (x :: b)))) as [geometry|e'] eqn:Hp;
        repeat split; intros ? H; try discriminate H.
      * injection H as <-. exists (VBuffer (drop 4 (x :: b))), geometry.
        split; [exact Hp |]. split; [reflexivity |].
        right. exists (x :: b). split; [discriminate | split; reflexivity].
      * injection H as <-. right. exists (VBuffer (drop 4 (x :: b))). exact Hp.
Qed.

End GeometrySanitizeMore.

Lemma GEOMETRY_sanitize_string_witness :
  "POINT(1 2)" <> ""
  /\ MySql.GEOMETRY.sanitize _ _ Examples.parse_stub Examples.toGeoJSON_stub
       (VString "POINT(1 2)")
     = Throw (Error "Could not parse").
Proof.
  split; [discriminate |].
  apply (GEOMETRY_sanitize_string _ _ Examples.parse_stub Examples.toGeoJSON_stub
           "POINT(1 2)").
  discriminate.
Defined.

Lemma GEOMETRY_sanitize_outcomes_witness :
  MySql.GEOMETRY.sanitize _ _ Examples.parse_stub Examples.toGeoJSON_stub (VBuffer [])
  = Return (MySql.GEOMETRY.Plain _ (VBuffer []))
  /\ ((ToBoolean (VBuffer []) = false /\ VBuffer [] = VNull)
      \/ (VBuffer [] = VBuffer [] /\ VBuffer [] = VBuffer [])).
Proof.
  split; [reflexivity |].
  apply (proj1 (GEOMETRY_sanitize_outcomes _ _ Examples.parse_stub
                  Examples.toGeoJSON_stub (VBuffer []))).
  reflexivity.
Defined.

(** ** MySQL DECIMAL and DATE, further *)

Lemma prefix_append (a b : string) : String.prefix a (a +:+ b) = true.
Proof.
  induction a as [|c a IH]; [now destruct b |].
  rewrite append_cons. cbn [String.prefix].
  destruct (ascii_dec c c) as [_ | Hne]; [exact IH | congruence].
Qed.

Section DecimalDefinition.

Variables Instance ToSqlOptions : Type.
Variable super_toSql : Instance -> ToSqlOptions -> string.
Variables unsigned zerofill : Instance -> bool.

(** X15. [DECIMAL.toSql] keeps the definition of the base type as a prefix
    and only appends to it: " UNSIGNED" when the type is unsigned, then
    " ZEROFILL" when it is zero-filled, in this order, so at most eighteen
    characters are added and nothing is when neither option is set. *)
Theorem DECIMAL_toSql_extends_base (this : Instance) (options : ToSqlOptions) :
  let sql := MySql.DECIMAL.toSql _ _ super_toSql unsigned zerofill this options in
  let base := super_toSql this options in
  sql = base +:+ (if unsigned this then " UNSIGNED" else "")
             +:+ (if zerofill this then " ZEROFILL" else "")
  /\ String.prefix base sql = true
  /\ String.length base <= String.length sql <= String.length base + 18
  /\ (unsigned this = false -> zerofill this = false -> sql = base).
Proof.
  intros sql base.
  assert (Heq : sql = base +:+ (if unsigned this then " UNSIGNED" else "")
                          +:+ (if zerofill this then " ZEROFILL" else "")).
  { subst sql base. unfold MySql.DECIMAL.toSql.
    destruct (unsigned this), (zerofill this);
      rewrite ?append_assoc, ?append_empty_r; reflexivity. }
  split; [exact Heq |]. split; [rewrite Heq; apply prefix_append |]. split.
  - rewrite Heq, !length_append.
    destruct (unsigned this), (zerofill this); cbn [String.length]; lia.
  - intros Hu Hz. rewrite Heq, Hu, Hz. now rewrite !append_empty_r.
Qed.

End DecimalDefinition.

Lemma DECIMAL_toSql_extends_base_witness :
  MySql.DECIMAL.toSql unit unit (fun _ _ => "DECIMAL(10, 2)")
    (fun _ => false) (fun _ => false) tt tt
  = "DECIMAL(10, 2)".
Proof.
  apply (proj2 (proj2 (proj2 (DECIMAL_toSql_extends_base unit unit
                                (fun _ _ => "DECIMAL(10, 2)")
                                (fun _ => false) (fun _ => false) tt tt))));
    reflexivity.
Defined.

Section DateSanitize.

Variable Out : Type.
Variable isValidTimeZone : string -> bool.
Variable dayjs_tz_toDate : string -> string -> Out.
Variable new_Date : string -> Out.
Variable super_sanitize : Value -> Out.

Let sanitize :=
  MySql.DATE_input.sanitize Out isValidTimeZone dayjs_tz_toDate new_Date super_sanitize.

(** X16. [DATE.sanitize] reads the value in a time zone only when the
    value is a string and the options carry a non-empty [timezone]: a
    valid zone name goes to [dayjs.tz], any other to [new Date] on the
    value, a space and the zone.  In every other case (the value is not
    a string, the options are missing, the [timezone] key is missing or
    empty) the base type's [sanitize] decides. *)
Theorem DATE_sanitize_routes (value : Value)
    (options : option MySql.DATE_input.SanitizeOptions) :
  (forall text zone : string,
      value = VString text ->
      options = Some (MySql.DATE_input.mkSanitizeOptions (Some zone)) ->
      zone <> "" ->
      sanitize value options
      = if isValidTimeZone zone then dayjs_tz_toDate text zone
        else new_Date (text +:+ " " +:+ zone))
  /\ ((forall text : string, value <> VString text) ->
      sanitize value options = super_sanitize value)
  /\ (options = None
      \/ options = Some (MySql.DATE_input.mkSanitizeOptions None)
      \/ options = Some (MySql.DATE_input.mkSanitizeOptions (Some "")) ->
      sanitize value options = super_sanitize value).
Proof.
  split; [| split].
  - intros text zone -> -> Hne.
    destruct zone as [|c zone]; [congruence | reflexivity].
  - intros Hnot. unfold sanitize, MySql.DATE_input.sanitize.
    destruct value; try reflexivity. exfalso. eapply Hnot. reflexivity.
  - intros [-> | [-> | ->]]; unfold sanitize, MySql.DATE_input.sanitize;
      destruct value; reflexivity.
Qed.

End DateSanitize.

Lemma DATE_sanitize_routes_witness :
  "+02:00" <> ""
  /\ MySql.DATE_input.sanitize string (fun zone => String.eqb zone "Europe/Paris")
       (fun text zone => "tz " +:+ text +:+ " @ " +:+ zone)
       (fun text => "Date " +:+ text) (fun _ => "base")
       (VString "2022-01-01 00:00:00")
       (Some (MySql.DATE_input.mkSanitizeOptions (Some "+02:00")))
     = "Date 2022-01-01 00:00:00 +02:00".
Proof.
  split; [discriminate |].
  apply (proj1 (DATE_sanitize_routes string (fun zone => String.eqb zone "Europe/Paris")
                  (fun text zone => "tz " +:+ text +:+ " @ " +:+ zone)
                  (fun text => "Date " +:+ text) (fun _ => "base")
                  (VString "2022-01-01 00:00:00")
                  (Some (MySql.DATE_input.mkSanitizeOptions (Some "+02:00"))))
           "2022-01-01 00:00:00" "+02:00" eq_refl eq_refl).
  discriminate.
Defined.

(** ** The override registry on every instance *)



